(** * simple_database: a shallow embedding of [simple_database/main.py]

    The program stores every table as one JSON file
    [<BASE_DB_FILE_PATH>/<database>/<table>.json] holding
    [{"columns": ..., "rows": [...]}].  This development embeds the Python
    classes [DateTimeEncoder], [Row], [Table] and [DataBase] and the two
    module-level functions, and states the behaviour of the storage engine
    as theorems.

    Modelling conventions.  The program is read as Python 3.
    - A Python value is a term of [value]; the result of [json.load] on a
      stored scalar is a term of [json].  [encode] is [json.dumps] with
      [cls=DateTimeEncoder] on one scalar, [decode] is [json.load].
    - A Python [dict] with string keys is the list of its items in
      insertion order, with distinct keys ([dict]); [json.dumps] and
      [json.load] keep that order.  Keyword arguments are such a list, in
      keyword order.
    - The directory [BASE_DB_FILE_PATH] is the file system [fs] of the model:
      a finite map from a database name to that database's directory, itself
      a finite map from a file name to the file.  [os.path.join
      BASE_DB_FILE_PATH d] is the key [d]; [os.path.join BASE_DB_FILE_PATH d
      f] is the pair [(d, f)].  Names are single path components.
    - A file is a text.  The text the program writes is the dump of a
      content ([Dumped]).  Any other text ([Foreign]: indented, written by
      another tool, or left with a tail by an earlier write) is described by
      what [json.load] makes of it and by the file it becomes when a dump is
      written over it from position 0.  What [json.load] returns for a file
      is an object with the two keys [columns] and [rows], the rows mapping
      keys to scalars.
    - Code that raises runs in the state-and-exception monad [M]: the state
      is what the code mutates (the files; for [DataBase] methods also the
      attribute dictionary of [self]), and an exception leaves the state as
      it was when it was raised.
    - A generator is the list of the values it yields when it is run to its
      end, with the exception that ended it, if one did. *)

From stdpp Require Import gmap strings list fin_maps.
From Stdlib Require Import ZArith Ascii Floats.SpecFloat.

Open Scope string_scope.
Open Scope list_scope.
Open Scope Z_scope.

(** ** Exceptions and the monad *)

Inductive exn : Type :=
| ValidationError (msg : option string)
| TypeError
| KeyError (key : string)
| IndexError
| AttributeError (attribute : string)
| FileNotFoundError
| JSONDecodeError.

Inductive result (A : Type) : Type :=
| Ok (a : A)
| Raise (e : exn).
Arguments Ok {A} a.
Arguments Raise {A} e.

Definition M (S A : Type) : Type := S → result A * S.

#[global] Instance M_ret {S} : MRet (M S) := λ A a s, (Ok a, s).

#[global] Instance M_bind {S} : MBind (M S) := λ A B k m s,
  match m s with
  | (Ok a, s') => k a s'
  | (Raise e, s') => (Raise e, s')
  end.

Definition raise {S A} (e : exn) : M S A := λ s, (Raise e, s).
Definition get_state {S} : M S S := λ s, (Ok s, s).

(** A generator run to its end. *)
Definition gen (A : Type) : Type := (list A * option exn)%type.

(** ** Python values *)

Inductive value : Type :=
| VNone
| VBool (b : bool)
| VInt (z : Z)
| VFloat (f : spec_float)
| VStr (s : string)
| VDate (year month day : Z).

(** What [json.load] finds in a stored row. *)
Inductive json : Type :=
| JNull
| JBool (b : bool)
| JInt (z : Z)
| JFloat (f : spec_float)
| JStr (s : string).

(** [type(v).__name__] *)
Definition type_name (v : value) : string :=
  match v with
  | VNone => "NoneType"
  | VBool _ => "bool"
  | VInt _ => "int"
  | VFloat _ => "float"
  | VStr _ => "str"
  | VDate _ _ _ => "date"
  end.

Definition digit (n : Z) : ascii := ascii_of_nat (48 + Z.to_nat (n `mod` 10)).

(** ["%0<width>d" % n] for [0 <= n < 10 ^ width] *)
Fixpoint zfill (width : nat) (n : Z) : string :=
  match width with
  | O => ""
  | S w => zfill w (n `div` 10) +:+ String (digit n) ""
  end.

(** [date.isoformat]: ["%04d-%02d-%02d" % (year, month, day)] *)
Definition isoformat (year month day : Z) : string :=
  zfill 4 year +:+ "-" +:+ zfill 2 month +:+ "-" +:+ zfill 2 day.

Module DateTimeEncoder.
(** The hook [json.dumps] calls on an object it cannot serialize itself. *)
Definition default (obj : value) : result value :=
  match obj with
  | VDate y m d => Ok (VStr (isoformat y m d))
  | _ => Raise TypeError
  end.
End DateTimeEncoder.

(** [json.dumps(v, cls=DateTimeEncoder)] on a scalar, as the JSON scalar
    that [json.load] will find. *)
Definition encode (v : value) : json :=
  match v with
  | VNone => JNull
  | VBool b => JBool b
  | VInt z => JInt z
  | VFloat f => JFloat f
  | VStr s => JStr s
  | VDate y m d =>
      match DateTimeEncoder.default v with
      | Ok (VStr s) => JStr s
      | _ => JNull
      end
  end.

Definition decode (j : json) : value :=
  match j with
  | JNull => VNone
  | JBool b => VBool b
  | JInt z => VInt z
  | JFloat f => VFloat f
  | JStr s => VStr s
  end.

(** Python's [==] on these values.  [bool], [int] and [float] compare by
    numeric value ([True == 1], [1 == 1.0]); a [float] and an [int] are
    compared exactly. *)
Definition as_int (v : value) : option Z :=
  match v with
  | VBool b => Some (Z.b2z b)
  | VInt z => Some z
  | _ => None
  end.

Definition float_eq_int (f : spec_float) (z : Z) : bool :=
  match f with
  | S754_zero _ => Z.eqb z 0
  | S754_finite s m e =>
      let n := if s then Z.neg m else Z.pos m in
      if Z.leb 0 e then Z.eqb z (n * 2 ^ e) else Z.eqb n (z * 2 ^ (- e))
  | _ => false
  end.

Definition py_eq (a b : value) : bool :=
  match a, b with
  | VNone, VNone => true
  | VStr s, VStr t => String.eqb s t
  | VDate y m d, VDate y' m' d' => Z.eqb y y' && Z.eqb m m' && Z.eqb d d'
  | VFloat f, VFloat g => SFeqb f g
  | VFloat f, _ =>
      match as_int b with Some z => float_eq_int f z | None => false end
  | _, VFloat g =>
      match as_int a with Some z => float_eq_int g z | None => false end
  | _, _ =>
      match as_int a, as_int b with
      | Some x, Some y => Z.eqb x y
      | _, _ => false
      end
  end.

(** ** Dicts and objects *)

(** A [dict] with string keys: its items in insertion order. *)
Abbreviation dict A := (list (string * A)).

(** [d[key]], without the [KeyError] *)
Fixpoint dict_get {A} (key : string) (d : dict A) : option A :=
  match d with
  | [] => None
  | (k, v) :: d' => if String.eqb k key then Some v else dict_get key d'
  end.

(** [d[key] = v]: a key that is there keeps its place, a new one goes
    last. *)
Fixpoint dict_set {A} (key : string) (v : A) (d : dict A) : dict A :=
  match d with
  | [] => [(key, v)]
  | (k, x) :: d' =>
      if String.eqb k key then (k, v) :: d' else (k, x) :: dict_set key v d'
  end.

(** The same keys in the same order, each value through [f]. *)
Definition dict_map {A B} (f : A → B) (d : dict A) : dict B :=
  (λ kv, (kv.1, f kv.2)) <$> d.

Definition dict_keys {A} (d : dict A) : list string := d.*1.

(** [setattr(obj, attribute, v)] on an instance of a plain class ([Row],
    [DataBase]), for a value [v] that is neither a class nor a dict: the
    three attributes that every such object has as descriptors of its type
    refuse it; any other name is stored in the object. *)
Definition setattr_error (attribute : string) : option exn :=
  if String.eqb attribute "__class__" then Some TypeError
  else if String.eqb attribute "__dict__" then Some TypeError
  else if String.eqb attribute "__weakref__"
       then Some (AttributeError "__weakref__")
  else None.

(** The attribute names [setattr] accepts. *)
Definition settable (attribute : string) : Prop :=
  setattr_error attribute = None.

(** ** The persisted table file *)

(** One column descriptor, the dict [{'name': ..., 'type': ...}]. *)
Record Column : Type := { col_name : string; col_type : string }.

(** The [columns] of a table: [None] (JSON [null]) or a list. *)
Abbreviation schema := (option (list Column)).

(** [bool(columns)] as the [or] of [Table.__init__] tests it. *)
Definition truthy (columns : schema) : bool :=
  match columns with
  | Some (_ :: _) => true
  | _ => false
  end.

(** What [json.load] returns for a table file. *)
Record tablefile : Type := {
  tf_columns : schema;
  tf_rows : list (dict json)
}.

(** A file.  [Dumped data]: the text is [json.dumps(data)], what the
    program writes.  [Foreign parse over]: any other text; [parse] is what
    [json.load] returns for it ([None]: it raises), and [over data'] is the
    file left when [json.dumps(data')] is written over the text from
    position 0 with no truncation (the dump, followed by what the old text
    has beyond the length of the dump). *)
Inductive file : Type :=
| Dumped (data : tablefile)
| Foreign (parse : option tablefile) (over : tablefile → file).

(** [json.load] on the text of a file, without the exception. *)
Definition parsed (f : file) : option tablefile :=
  match f with
  | Dumped data => Some data
  | Foreign parse _ => parse
  end.

(** [seek(0)] then [write(json.dumps(data'))] on the text of a file.  On a
    dumped file this is for a [data'] whose dump is at least as long as the
    text: [_write_row], its one caller, passes the content it has read with
    one more row. *)
Definition overwritten (f : file) (data' : tablefile) : file :=
  match f with
  | Dumped _ => Dumped data'
  | Foreign _ over => over data'
  end.

Abbreviation directory := (gmap string file).
Abbreviation fs := (gmap string (gmap string file)).
Abbreviation path := (string * string)%type.

(** The file at a table path, if there is one. *)
Definition lookup_file (p : path) (disk : fs) : option file :=
  disk !! p.1 ≫= (λ d : directory, d !! p.2).

(** [os.path.exists] on a table path *)
Definition exists_file (p : path) (disk : fs) : bool :=
  match lookup_file p disk with
  | Some _ => true
  | None => false
  end.

(** [open(p)] then [json.load] *)
Definition json_load (p : path) : M fs tablefile := λ disk,
  match lookup_file p disk with
  | Some f =>
      match parsed f with
      | Some data => (Ok data, disk)
      | None => (Raise JSONDecodeError, disk)
      end
  | None => (Raise FileNotFoundError, disk)
  end.

(** [open(p, mode='w')] then [write(json.dumps(data))]: the directory must
    exist, the file is created or truncated. *)
Definition json_dump_new (p : path) (data : tablefile) : M fs unit := λ disk,
  match disk !! p.1 with
  | Some d => (Ok tt, <[p.1 := <[p.2 := Dumped data]> d]> disk)
  | None => (Raise FileNotFoundError, disk)
  end.

(** [seek(0)] then [write(json.dumps(data))] on a file opened with [r+]:
    the file must be there, and its text is written over, not truncated. *)
Definition json_dump_over (p : path) (data : tablefile) : M fs unit := λ disk,
  match disk !! p.1 with
  | Some d =>
      match d !! p.2 with
      | Some f => (Ok tt, <[p.1 := <[p.2 := overwritten f data]> d]> disk)
      | None => (Raise FileNotFoundError, disk)
      end
  | None => (Raise FileNotFoundError, disk)
  end.

(** ** Objects *)

(** A [Row] object, by its attributes. *)
Record Row : Type := { row_attrs : dict value }.

(** The loop of [Row.__init__]: [setattr(self, key, value)] for every
    item, from the attributes set so far. *)
Fixpoint Row_setattrs (items attrs : dict value) : result (dict value) :=
  match items with
  | [] => Ok attrs
  | (key, v) :: items' =>
      match setattr_error key with
      | Some e => Raise e
      | None => Row_setattrs items' (dict_set key v attrs)
      end
  end.

(** [Row(row)] *)
Definition Row_init (row : dict value) : result Row :=
  match Row_setattrs row [] with
  | Ok attrs => Ok {| row_attrs := attrs |}
  | Raise e => Raise e
  end.

(** A [Table] object.  Its [db] attribute is only read by [__init__], for
    the database name in the path. *)
Record Table : Type := {
  name : string;
  table_filepath : path;
  columns : schema
}.

(** An attribute of a [DataBase] object.  [setattr(self, table, Table(..))]
    stores tables in the same dictionary as [name], [db_filepath] and
    [tables]. *)
Inductive attr : Type :=
| AStr (s : string)
| ADir (d : string)
| AList (l : list string)
| ATable (t : Table).

Abbreviation attrs := (gmap string attr).

Definition dquote : string := String (ascii_of_nat 34) "".

(** ** class Table *)

Module Table.

Definition _read_columns (table_filepath : path) : M fs schema :=
  data ← json_load table_filepath;
  mret (tf_columns data).

(** [Table(db, name, columns)].  [db.name] is a string unless a table
    called [name] has been bound over it; [os.path.join] then raises
    [TypeError]. *)
Definition __init__ (db : attrs) (name : string) (columns : schema)
  : M fs Table :=
  match db !! "name" with
  | Some (AStr db_name) =>
      let table_filepath := (db_name, name +:+ ".json") in
      disk ← get_state;
      (if exists_file table_filepath disk then mret tt
       else
         let empty_table := {| tf_columns := columns; tf_rows := [] |} in
         json_dump_new table_filepath empty_table);;
      columns' ← (if truthy columns then mret columns
                  else _read_columns table_filepath);
      mret {| name := name;
              table_filepath := table_filepath;
              columns := columns' |}
  | Some _ => raise TypeError
  | None => raise (AttributeError "name")
  end.

Definition invalid_type_message (f_name arg_type f_type : string) : string :=
  "Invalid type of field " +:+ dquote +:+ f_name +:+ dquote +:+
  ": Given " +:+ dquote +:+ arg_type +:+ dquote +:+
  ", expected " +:+ dquote +:+ f_type +:+ dquote.

(** The [for i, col in enumerate(self.columns)] loop of [insert], from
    index [i] on, with the dict [data] built so far. *)
Fixpoint insert_loop (cols : list Column) (i : nat) (args : list value)
    (data : dict value) : result (dict value) :=
  match cols with
  | [] => Ok data
  | col :: cols' =>
      let f_name := col_name col in
      let f_type := col_type col in
      match args !! i with
      | None => Raise IndexError
      | Some arg =>
          let arg_type := type_name arg in
          if String.eqb f_type arg_type
          then insert_loop cols' (S i) args (dict_set f_name arg data)
          else Raise (ValidationError
                        (Some (invalid_type_message f_name arg_type f_type)))
      end
  end.

Definition _write_row (self : Table) (row : dict value) : M fs unit :=
  data ← json_load (table_filepath self);
  json_dump_over (table_filepath self)
    {| tf_columns := tf_columns data;
       tf_rows := tf_rows data ++ [dict_map encode row] |}.

(** [len(None)] raises [TypeError]. *)
Definition insert (self : Table) (args : list value) : M fs unit :=
  match columns self with
  | None => raise TypeError
  | Some cols =>
      if negb (Nat.eqb (length args) (length cols))
      then raise (ValidationError (Some "Invalid amount of field"))
      else
        match insert_loop cols 0 args [] with
        | Ok data => _write_row self data
        | Raise e => raise e
        end
  end.

(** The inner loop of [query] on one row: one [yield Row(row)] for every
    keyword whose value the row has; [row[key]] raises [KeyError], and an
    exception of [Row(row)] ends the generator. *)
Fixpoint query_row (row : dict value) (kwargs : dict value) : gen Row :=
  match kwargs with
  | [] => ([], None)
  | (key, v) :: kwargs' =>
      match dict_get key row with
      | None => ([], Some (KeyError key))
      | Some x =>
          if py_eq x v
          then
            match Row_init row with
            | Ok r => let '(ys, e) := query_row row kwargs' in (r :: ys, e)
            | Raise e => ([], Some e)
            end
          else query_row row kwargs'
      end
  end.

Fixpoint query_rows (rows : list (dict value)) (kwargs : dict value)
  : gen Row :=
  match rows with
  | [] => ([], None)
  | row :: rows' =>
      match query_row row kwargs with
      | (ys, Some e) => (ys, Some e)
      | (ys, None) =>
          let '(zs, e) := query_rows rows' kwargs in (ys ++ zs, e)
      end
  end.

(** The loop [for row in rows: yield Row(row)] of [all]. *)
Fixpoint yield_rows (rows : list (dict value)) : gen Row :=
  match rows with
  | [] => ([], None)
  | row :: rows' =>
      match Row_init row with
      | Ok r => let '(ys, e) := yield_rows rows' in (r :: ys, e)
      | Raise e => ([], Some e)
      end
  end.

(** The rows [json.load] returns. *)
Definition loaded_rows (data : tablefile) : list (dict value) :=
  dict_map decode <$> tf_rows data.

Definition query (self : Table) (kwargs : dict value) (disk : fs)
  : gen Row :=
  match json_load (table_filepath self) disk with
  | (Ok data, _) => query_rows (loaded_rows data) kwargs
  | (Raise e, _) => ([], Some e)
  end.

Definition all (self : Table) (disk : fs) : gen Row :=
  match json_load (table_filepath self) disk with
  | (Ok data, _) => yield_rows (loaded_rows data)
  | (Raise e, _) => ([], Some e)
  end.

Definition count (self : Table) : M fs nat :=
  data ← json_load (table_filepath self);
  mret (length (tf_rows data)).

Definition describe (self : Table) : schema := columns self.

End Table.

(** ** String operations of [_read_tables] *)

(** [sub in s] *)
Fixpoint contains (sub s : string) : bool :=
  String.prefix sub s ||
  match s with
  | "" => false
  | String _ s' => contains sub s'
  end.

(** [s.replace(old, '')] for a non-empty [old]: the scan goes left to
    right; at an occurrence of [old] it drops [len(old)] characters ([skip]
    counts the ones still to drop), elsewhere it keeps the character. *)
Fixpoint remove_from (old : string) (skip : nat) (s : string) : string :=
  match s with
  | "" => ""
  | String c s' =>
      match skip with
      | S k => remove_from old k s'
      | O =>
          if String.prefix old s
          then remove_from old (String.length old - 1)%nat s'
          else String c (remove_from old 0 s')
      end
  end.

Definition remove_all (old s : string) : string := remove_from old 0 s.

(** ** class DataBase *)

Module DataBase.

(** A method of a [DataBase] object runs on the attributes of [self] and
    on the files. *)
Abbreviation state := (attrs * fs)%type.

(** An assignment [self.<attribute> = a] of the source text, to one of
    [name], [db_filepath], [tables]; also the [append] on the list
    [self.tables], which is the same list afterwards. *)
Definition assign (attribute : string) (a : attr) : M state unit :=
  λ '(self, disk), (Ok tt, (<[attribute := a]> self, disk)).

(** [setattr(self, attribute, a)] with a name computed at run time. *)
Definition setattr (attribute : string) (a : attr) : M state unit :=
  match setattr_error attribute with
  | Some e => raise e
  | None => assign attribute a
  end.

Definition on_disk {A} (m : M fs A) : M state A :=
  λ '(self, disk), let '(r, disk') := m disk in (r, (self, disk')).

Definition already_exists_message (name : string) : string :=
  "Database with name " +:+ dquote +:+ name +:+ dquote +:+
  " already exists.".

(** The class method [create]; [os.makedirs] on a path that is not there
    makes an empty directory. *)
Definition create (name : string) : M fs unit := λ disk,
  match disk !! name with
  | Some _ =>
      (Raise (ValidationError (Some (already_exists_message name))), disk)
  | None => (Ok tt, <[name := ∅]> disk)
  end.

(** [os.listdir]; the order of the listing is the one of [map_to_list]. *)
Definition listdir (d : string) : M fs (list string) := λ disk,
  match disk !! d with
  | Some dir => (Ok (map_to_list dir).*1, disk)
  | None => (Raise FileNotFoundError, disk)
  end.

(** The second loop of [_read_tables]. *)
Fixpoint bind_tables (tables : list string) : M state unit :=
  match tables with
  | [] => mret tt
  | table :: tables' =>
      '(self, _) ← get_state;
      t ← on_disk (Table.__init__ self table None);
      setattr table (ATable t);;
      bind_tables tables'
  end.

Definition _read_tables : M state (list string) :=
  '(self, _) ← get_state;
  match self !! "db_filepath" with
  | Some (ADir d) =>
      files ← on_disk (listdir d);
      let tables :=
        remove_all ".json" <$> filter (λ f, contains ".json" f) files in
      bind_tables tables;;
      mret tables
  | Some _ => raise TypeError
  | None => raise (AttributeError "db_filepath")
  end.

Definition __init__ (name : string) : M state unit :=
  assign "name" (AStr name);;
  assign "db_filepath" (ADir name);;
  tables ← _read_tables;
  assign "tables" (AList tables).

(** [DataBase(name)]: [__init__] on a fresh object. *)
Definition new (name : string) : M fs attrs := λ disk,
  match __init__ name (∅, disk) with
  | (Ok _, (self, disk')) => (Ok self, disk')
  | (Raise e, (_, disk')) => (Raise e, disk')
  end.

(** [table_name in self.tables] needs a container: once a table called
    [tables] is bound over the list, it raises [TypeError]. *)
Definition create_table (table_name : string) (columns : schema)
  : M state unit :=
  '(self, _) ← get_state;
  match self !! "tables" with
  | Some (AList tables) =>
      if bool_decide (table_name ∈ tables)
      then raise (ValidationError None)
      else
        table ← on_disk (Table.__init__ self table_name columns);
        assign "tables" (AList (tables ++ [table_name]));;
        setattr table_name (ATable table)
  | Some _ => raise TypeError
  | None => raise (AttributeError "tables")
  end.

Definition show_tables (self : attrs) : result attr :=
  match self !! "tables" with
  | Some a => Ok a
  | None => Raise (AttributeError "tables")
  end.

End DataBase.

Definition connect_database (db_name : string) : M fs attrs :=
  DataBase.new db_name.

Definition create_database (db_name : string) : M fs attrs :=
  DataBase.create db_name;;
  connect_database db_name.

(** ** What the specification asks of [query] *)

(** [row[key] == v], false when the row has no such key. *)
Definition satisfies (row : dict value) (kw : string * value) : bool :=
  match dict_get kw.1 row with
  | Some x => py_eq x kw.2
  | None => false
  end.

(** The query as the specification words it: the rows that satisfy every
    keyword, each of them once as a Row value, in the stored order. *)
Definition query_spec (rows : list (dict value)) (kwargs : dict value)
  : list Row :=
  Build_Row <$> List.filter (λ row, forallb (satisfies row) kwargs) rows.

Definition has_keys (kwargs : dict value) (row : dict value) : Prop :=
  Forall (λ kw, is_Some (dict_get kw.1 row)) kwargs.

(** ** Definitions used to state further properties *)

(** A dict from which [Row(..)] can be built: distinct keys, none of which
    [setattr] refuses. *)
Definition plain_row {A} (row : dict A) : Prop :=
  NoDup (dict_keys row) ∧ Forall settable (dict_keys row).

(** The handle [Table(db, n)] of a table [n] of the directory [d], with the
    schema its file persists. *)
Definition bound_table (d : string) (disk : fs) (n : string) : Table :=
  {| name := n;
     table_filepath := (d, n +:+ ".json");
     columns :=
       default None
         (tf_columns <$> (lookup_file (d, n +:+ ".json") disk ≫= parsed)) |}.

(** The attributes of [self] after the second loop of [_read_tables]. *)
Definition bind_all (d : string) (disk : fs) (tables : list string)
    (self : attrs) : attrs :=
  foldl (λ s n, <[n := ATable (bound_table d disk n)]> s) self tables.


(** [disk'] has every file of [disk], with the same text, and the same
    directories: files may have been added, none changed or removed. *)
Definition keeps_files (disk disk' : fs) : Prop :=
  (∀ q f, lookup_file q disk = Some f → lookup_file q disk' = Some f)
  ∧ (∀ d, is_Some (disk' !! d) ↔ is_Some (disk !! d)).

(** ** Sample databases *)

(** The database of the specification's scenario: [shop], with a table
    [users] that holds one row. *)
Module Shop.
Definition users_columns : list Column :=
  [ {| col_name := "name"; col_type := "str" |};
    {| col_name := "age"; col_type := "int" |} ].

Definition ana : dict json := [("name", JStr "Ana"); ("age", JInt 30)].

Definition ana_row : Row :=
  {| row_attrs := [("name", VStr "Ana"); ("age", VInt 30)] |}.

Definition users_file : tablefile :=
  {| tf_columns := Some users_columns; tf_rows := [ana] |}.

Definition disk : fs :=
  {[ "shop" := {[ "users.json" := Dumped users_file ]} ]}.

Definition users : Table :=
  {| name := "users";
     table_filepath := ("shop", "users.json");
     columns := Some users_columns |}.

Definition db : attrs :=
  <["name" := AStr "shop"]> (<["db_filepath" := ADir "shop"]>
  (<["users" := ATable users]> (<["tables" := AList ["users"]]> ∅))).

Definition other_columns : list Column :=
  [ {| col_name := "title"; col_type := "str" |} ].

(** [2.5] *)
Definition two_and_a_half : value := VFloat (S754_finite false 5 (-1)).
End Shop.

(** A table with a column of dates. *)
Module Diary.
Definition events_columns : list Column :=
  [ {| col_name := "day"; col_type := "date" |} ].

Definition events_file : tablefile :=
  {| tf_columns := Some events_columns; tf_rows := [] |}.

Definition disk : fs :=
  {[ "diary" := {[ "events.json" := Dumped events_file ]} ]}.

End Diary.

(** A table whose name contains [.json]. *)
Module Dotted.
Definition name_column : list Column :=
  [ {| col_name := "name"; col_type := "str" |} ].

Definition contents : tablefile :=
  {| tf_columns := Some name_column;
     tf_rows := [ [("name", JStr "Ana")] ] |}.

(** The directory after [create_table("a.json", name_column)] and one
    [insert]. *)
Definition disk : fs := {[ "shop" := {[ "a.json.json" := Dumped contents ]} ]}.

Definition table : Table :=
  {| name := "a.json";
     table_filepath := ("shop", "a.json.json");
     columns := Some name_column |}.

(** What [connect_database] binds instead. *)
Definition phantom : Table :=
  {| name := "a";
     table_filepath := ("shop", "a.json");
     columns := None |}.

Definition disk_after : fs :=
  {[ "shop" := {[ "a.json.json" := Dumped contents;
                  "a.json" :=
                    Dumped {| tf_columns := None; tf_rows := [] |} ]} ]}.
End Dotted.

(** * Properties *)

(** ** The monad and the files *)

Section monad_facts.
Context {S A B : Type}.
Implicit Types (m : M S A) (k : A → M S B).

Lemma bind_Ok m k s a s' : m s = (Ok a, s') → (m ≫= k) s = k a s'.
Proof. intros H. unfold mbind, M_bind. by rewrite H. Qed.

Lemma bind_Raise m k s e s' :
  m s = (Raise e, s') → (m ≫= k) s = (Raise e, s').
Proof. intros H. unfold mbind, M_bind. by rewrite H. Qed.
End monad_facts.

Lemma lookup_file_insert (p : path) (d : directory) (f : file) (disk : fs) :
  lookup_file p (<[p.1 := <[p.2 := f]> d]> disk) = Some f.
Proof.
  unfold lookup_file. rewrite lookup_insert_eq. simpl. apply lookup_insert_eq.
Qed.

Lemma lookup_file_insert_ne (p q : path) (d : directory) (f : file)
    (disk : fs) :
  disk !! p.1 = Some d → p ≠ q →
  lookup_file q (<[p.1 := <[p.2 := f]> d]> disk) = lookup_file q disk.
Proof.
  intros Hd Hne. unfold lookup_file.
  destruct (decide (p.1 = q.1)) as [Heq | Hneq].
  - rewrite <- Heq, lookup_insert_eq, Hd. simpl.
    apply lookup_insert_ne. intros H2. apply Hne.
    destruct p, q; simpl in *; congruence.
  - by rewrite lookup_insert_ne.
Qed.

Lemma json_load_Some (p : path) (disk : fs) (f : file) (data : tablefile) :
  lookup_file p disk = Some f → parsed f = Some data →
  json_load p disk = (Ok data, disk).
Proof. intros H Hp. unfold json_load. by rewrite H, Hp. Qed.

Lemma json_load_None (p : path) (disk : fs) :
  lookup_file p disk = None →
  json_load p disk = (Raise FileNotFoundError, disk).
Proof. intros H. unfold json_load. by rewrite H. Qed.

(** [json.load] only reads. *)
Lemma json_load_disk (p : path) (disk disk' : fs) (r : result tablefile) :
  json_load p disk = (r, disk') → disk' = disk.
Proof.
  unfold json_load. destruct (lookup_file p disk) as [f |]; [| congruence].
  destruct (parsed f); congruence.
Qed.

Lemma read_columns_Some (p : path) (disk : fs) (f : file)
    (data : tablefile) :
  lookup_file p disk = Some f → parsed f = Some data →
  Table._read_columns p disk = (Ok (tf_columns data), disk).
Proof.
  intros H Hp. unfold Table._read_columns.
  by rewrite (bind_Ok _ _ _ _ _ (json_load_Some _ _ _ _ H Hp)).
Qed.

(** ** Dicts and rows *)

Lemma dict_get_set_eq {A} (key : string) (v : A) (d : dict A) :
  dict_get key (dict_set key v d) = Some v.
Proof.
  induction d as [| [k x] d IH]; simpl.
  - by rewrite String.eqb_refl.
  - destruct (String.eqb_spec k key) as [-> | Hne]; simpl.
    + by rewrite String.eqb_refl.
    + by destruct (String.eqb_spec k key).
Qed.

Lemma dict_get_set_ne {A} (key key' : string) (v : A) (d : dict A) :
  key ≠ key' → dict_get key' (dict_set key v d) = dict_get key' d.
Proof.
  intros Hne. induction d as [| [k x] d IH]; simpl.
  - by destruct (String.eqb_spec key key').
  - destruct (String.eqb_spec k key) as [-> | Hk]; simpl.
    + by destruct (String.eqb_spec key key').
    + by rewrite IH.
Qed.

Lemma dict_get_map {A B} (f : A → B) (key : string) (d : dict A) :
  dict_get key (dict_map f d) = f <$> dict_get key d.
Proof.
  induction d as [| [k x] d IH]; [done |]. simpl.
  by destruct (String.eqb k key).
Qed.

Lemma dict_keys_map {A B} (f : A → B) (d : dict A) :
  dict_keys (dict_map f d) = dict_keys d.
Proof.
  unfold dict_keys, dict_map. rewrite <- list_fmap_compose.
  by apply list_fmap_ext.
Qed.

Lemma dict_get_None {A} (key : string) (d : dict A) :
  dict_get key d = None ↔ key ∉ dict_keys d.
Proof.
  unfold dict_keys. induction d as [| [k x] d IH]; simpl.
  - split; [intros _ ?%elem_of_nil; done | done].
  - rewrite not_elem_of_cons.
    destruct (String.eqb_spec k key) as [-> | Hne]; [split; [done | tauto] |].
    rewrite IH. split; [by split | tauto].
Qed.


Lemma dict_set_fresh {A} (key : string) (v : A) (d : dict A) :
  key ∉ dict_keys d → dict_set key v d = d ++ [(key, v)].
Proof.
  unfold dict_keys. induction d as [| [k x] d IH]; [done |]. simpl.
  intros [Hne Hnin]%not_elem_of_cons.
  destruct (String.eqb_spec k key); [congruence |]. by rewrite IH.
Qed.

(** [Row(row)] for a dict with distinct keys that [setattr] accepts: the
    attributes are the items. *)
Lemma Row_setattrs_plain (items attrs : dict value) :
  NoDup (dict_keys attrs ++ dict_keys items) →
  Forall settable (dict_keys items) →
  Row_setattrs items attrs = Ok (attrs ++ items).
Proof.
  revert attrs. induction items as [| [key v] items IH]; intros attrs Hnd Hok.
  - by rewrite app_nil_r.
  - simpl. apply Forall_cons in Hok as [Hkey Hok]. unfold settable in Hkey.
    simpl in Hkey. rewrite Hkey.
    assert (key ∉ dict_keys attrs) as Hfresh.
    { apply NoDup_app in Hnd as (_ & Hdisj & _). intros Hin.
      apply (Hdisj key Hin). left. }
    rewrite (dict_set_fresh _ _ _ Hfresh), IH; [by rewrite <- app_assoc | |done].
    unfold dict_keys in *. rewrite fmap_app. simpl.
    by rewrite <- app_assoc.
Qed.

Lemma Row_init_plain (row : dict value) :
  plain_row row → Row_init row = Ok {| row_attrs := row |}.
Proof.
  intros [Hnd Hok]. unfold Row_init.
  by rewrite (Row_setattrs_plain row [] Hnd Hok).
Qed.

Lemma Row_setattrs_Raise (items attrs : dict value) (e : exn) :
  Row_setattrs items attrs = Raise e →
  ∃ key, key ∈ dict_keys items ∧ setattr_error key = Some e.
Proof.
  revert attrs. induction items as [| [key v] items IH]; intros attrs;
    [done |]. simpl.
  destruct (setattr_error key) as [e' |] eqn:Hkey.
  - intros [= <-]. exists key. split; [left | done].
  - intros (k & Hin & Hk)%IH. exists k. split; [by right | done].
Qed.

Lemma plain_row_map {A B} (f : A → B) (row : dict A) :
  plain_row row → plain_row (dict_map f row).
Proof. unfold plain_row. by rewrite dict_keys_map. Qed.

(** All the rows can be built: the loop of [all] yields them all. *)
Lemma yield_rows_plain (rows : list (dict value)) :
  Forall plain_row rows → Table.yield_rows rows = (Build_Row <$> rows, None).
Proof.
  induction 1 as [| row rows Hrow _ IH]; [done |]. simpl.
  by rewrite (Row_init_plain _ Hrow), IH.
Qed.


(** ** Opening a table *)

(** [Table.__init__] in one step, once [db.name] is known to be a string:
    the file is written only when it is not there, and it is read only
    when the schema passed in is [None] or empty. *)
Lemma table_init_unfold (db : attrs) (db_name name : string)
    (columns : schema) (disk : fs) :
  db !! "name" = Some (AStr db_name) →
  Table.__init__ db name columns disk =
    let p := (db_name, name +:+ ".json") in
    let disk' :=
      match lookup_file p disk, disk !! db_name with
      | None, Some d =>
          <[db_name := <[name +:+ ".json" :=
             Dumped {| tf_columns := columns; tf_rows := [] |}]> d]> disk
      | _, _ => disk
      end in
    match lookup_file p disk' with
    | Some f =>
        if truthy columns
        then (Ok {| name := name; table_filepath := p; columns := columns |},
              disk')
        else
          match parsed f with
          | Some data =>
              (Ok {| name := name; table_filepath := p;
                     columns := tf_columns data |}, disk')
          | None => (Raise JSONDecodeError, disk')
          end
    | None => (Raise FileNotFoundError, disk)
    end.
Proof.
  intros Hname. unfold Table.__init__. rewrite Hname.
  unfold mbind, mret, M_bind, M_ret, get_state, exists_file.
  destruct (lookup_file (db_name, name +:+ ".json") disk)
    as [f |] eqn:Hfile.
  - simpl. rewrite Hfile. destruct (truthy columns); [done |].
    unfold Table._read_columns, mbind, M_bind, json_load. rewrite Hfile.
    by destruct (parsed f).
  - unfold json_dump_new. simpl.
    destruct (disk !! db_name) as [d |] eqn:Hd; [| by rewrite Hfile].
    pose proof (lookup_file_insert (db_name, name +:+ ".json") d
      (Dumped {| tf_columns := columns; tf_rows := [] |}) disk) as Hnew.
    simpl in Hnew. rewrite Hnew.
    destruct (truthy columns); [done |].
    by rewrite (read_columns_Some _ _ _ _ Hnew eq_refl).
Qed.

(** C10: in a database directory that has no file for the table yet,
    [Table(db, name)] with no schema raises nothing; it writes the file
    [{"columns": null, "rows": []}] and returns a handle whose schema is
    [None].  Nothing checks that a schema was given. *)
Theorem table_init_without_schema (db : attrs) (db_name name : string)
    (dir : directory) (disk : fs) :
  db !! "name" = Some (AStr db_name) →
  disk !! db_name = Some dir →
  dir !! (name +:+ ".json") = None →
  Table.__init__ db name None disk
    = (Ok {| name := name;
             table_filepath := (db_name, name +:+ ".json");
             columns := None |},
       <[db_name := <[name +:+ ".json" :=
           Dumped {| tf_columns := None; tf_rows := [] |}]> dir]> disk).
Proof.
  intros Hname Hdir Hfile.
  rewrite (table_init_unfold _ _ _ _ _ Hname). simpl.
  assert (lookup_file (db_name, name +:+ ".json") disk = None) as ->.
  { unfold lookup_file. simpl. by rewrite Hdir. }
  rewrite Hdir.
  pose proof (lookup_file_insert (db_name, name +:+ ".json") dir
    (Dumped {| tf_columns := None; tf_rows := [] |}) disk) as Hnew.
  simpl in Hnew. by rewrite Hnew.
Qed.

(** In [shop], which has no table [orders]. *)
Lemma table_init_without_schema_witness :
  Table.__init__ Shop.db "orders" None Shop.disk
    = (Ok {| name := "orders";
             table_filepath := ("shop", "orders.json");
             columns := None |},
       <["shop" := <["orders.json" :=
           Dumped {| tf_columns := None; tf_rows := [] |}]>
             {[ "users.json" := Dumped Shop.users_file ]}]> Shop.disk).
Proof.
  apply (table_init_without_schema Shop.db "shop" "orders"
           {[ "users.json" := Dumped Shop.users_file ]} Shop.disk);
    vm_compute; reflexivity.
Defined.

(** When the file of the table is there, opening the table leaves the
    files alone; the handle has the schema passed in when that one is a
    non-empty list, and otherwise the schema that [json.load] finds in the
    file. *)
Lemma table_init_existing_file (db : attrs) (db_name name : string)
    (columns : schema) (f : file) (data : tablefile) (disk : fs) :
  db !! "name" = Some (AStr db_name) →
  lookup_file (db_name, name +:+ ".json") disk = Some f →
  parsed f = Some data →
  ∃ t, Table.__init__ db name columns disk = (Ok t, disk) ∧
       Table.describe t = if truthy columns then columns else tf_columns data.
Proof.
  intros Hname Hfile Hparsed.
  rewrite (table_init_unfold _ _ _ _ _ Hname). simpl. rewrite Hfile. simpl.
  rewrite Hfile, Hparsed.
  destruct (truthy columns); eexists; (split; [reflexivity | done]).
Qed.

(** C3, on [users] of [shop], whose file persists the columns [name] and
    [age]: opened with the one column [title], the handle keeps [title],
    the file is left as it is, and [describe()] returns [title], which is
    not the schema that [_read_columns] reads from the file. *)
Theorem table_init_keeps_passed_schema :
  ∃ t,
    Table.__init__ Shop.db "users" (Some Shop.other_columns) Shop.disk
      = (Ok t, Shop.disk) ∧
    Table._read_columns (table_filepath t) Shop.disk
      = (Ok (Some Shop.users_columns), Shop.disk) ∧
    Table.describe t = Some Shop.other_columns ∧
    Table.describe t ≠ Some Shop.users_columns.
Proof.
  exists {| name := "users"; table_filepath := ("shop", "users.json");
            columns := Some Shop.other_columns |}.
  split; [vm_compute; reflexivity |].
  split; [vm_compute; reflexivity |].
  split; [reflexivity | discriminate].
Qed.

(** ** Validation in [insert] *)

Section insert_validation.
Context (self : Table) (cols : list Column) (disk : fs).
Hypothesis Hcols : columns self = Some cols.

(** C5: with a number of values that is not the number of columns,
    [insert] raises [ValidationError("Invalid amount of field")] and
    leaves the files as they are, so [count()] is what it was. *)
Theorem insert_wrong_count (args : list value) :
  length args ≠ length cols →
  Table.insert self args disk
    = (Raise (ValidationError (Some "Invalid amount of field")), disk) ∧
  Table.count self (Table.insert self args disk).2 = Table.count self disk.
Proof.
  intros Hlen.
  assert (Table.insert self args disk
    = (Raise (ValidationError (Some "Invalid amount of field")), disk))
    as ->; [| done].
  unfold Table.insert. rewrite Hcols.
  by destruct (Nat.eqb_spec (length args) (length cols)).
Qed.
End insert_validation.

(** One value for the two columns of [users]. *)
Lemma insert_wrong_count_witness :
  Table.insert Shop.users [VStr "Bo"] Shop.disk
    = (Raise (ValidationError (Some "Invalid amount of field")), Shop.disk) ∧
  Table.count Shop.users (Table.insert Shop.users [VStr "Bo"] Shop.disk).2
    = Table.count Shop.users Shop.disk.
Proof.
  apply (insert_wrong_count Shop.users Shop.users_columns Shop.disk);
    [reflexivity | simpl; lia].
Defined.

(** The loop stops at the first column whose type tag is not the type name
    of the value at its position. *)
Lemma insert_loop_mismatch (cols : list Column) :
  ∀ (i0 : nat) (args : list value) (data : dict value) (k : nat)
    (col : Column) (arg : value),
    cols !! k = Some col → args !! (i0 + k)%nat = Some arg →
    col_type col ≠ type_name arg →
    (∀ j, (j < length cols)%nat → is_Some (args !! (i0 + j)%nat)) →
    ∃ j col' arg',
      (j ≤ k)%nat ∧ cols !! j = Some col' ∧
      args !! (i0 + j)%nat = Some arg' ∧
      col_type col' ≠ type_name arg' ∧
      (∀ j' c a, (j' < j)%nat → cols !! j' = Some c →
                 args !! (i0 + j')%nat = Some a → col_type c = type_name a) ∧
      Table.insert_loop cols i0 args data
        = Raise (ValidationError (Some (Table.invalid_type_message
                   (col_name col') (type_name arg') (col_type col')))).
Proof.
  induction cols as [| c cols IH]; intros i0 args data k col arg Hc Ha Hne Hall.
  - by rewrite lookup_nil in Hc.
  - destruct (Hall 0%nat) as [a0 Ha0]; [simpl; lia |].
    rewrite Nat.add_0_r in Ha0. simpl. rewrite Ha0.
    destruct (String.eqb_spec (col_type c) (type_name a0)) as [Heq | Hneq].
    + destruct k as [| k].
      { simpl in Hc. rewrite Nat.add_0_r in Ha. congruence. }
      simpl in Hc.
      destruct (IH (S i0) args (dict_set (col_name c) a0 data) k col arg) as
        (j & c' & a' & Hj & Hcj & Haj & Hnej & Hbefore & Hrun).
      { done. }
      { by replace (S i0 + k)%nat with (i0 + S k)%nat by lia. }
      { done. }
      { intros j Hj. replace (S i0 + j)%nat with (i0 + S j)%nat by lia.
        apply Hall. simpl. lia. }
      exists (S j), c', a'. repeat split.
      * lia.
      * done.
      * by replace (i0 + S j)%nat with (S i0 + j)%nat by lia.
      * done.
      * intros [| j'] c1 a1 Hlt Hc1 Ha1.
        { simpl in Hc1. rewrite Nat.add_0_r in Ha1. congruence. }
        apply (Hbefore j' c1 a1); [lia | done |].
        by replace (S i0 + j')%nat with (i0 + S j')%nat by lia.
      * done.
    + exists 0%nat, c, a0. repeat split.
      * lia.
      * by rewrite Nat.add_0_r.
      * done.
      * intros j' ? ? Hlt. lia.
Qed.

(** C6: with the right number of values, one of which (at position [i])
    has a type name that is not the type tag of its column, [insert] raises
    [ValidationError]; the message names a field whose value has the wrong
    type (the first one, at [j ≤ i]), the type given and the type expected;
    the files, and so the stored rows, are as they were. *)
Theorem insert_type_mismatch (self : Table) (cols : list Column)
    (args : list value) (disk : fs) (i : nat) (col : Column) (arg : value) :
  columns self = Some cols →
  length args = length cols →
  cols !! i = Some col → args !! i = Some arg →
  col_type col ≠ type_name arg →
  ∃ j col' arg',
    (j ≤ i)%nat ∧ cols !! j = Some col' ∧ args !! j = Some arg' ∧
    col_type col' ≠ type_name arg' ∧
    (∀ j' c a, (j' < j)%nat → cols !! j' = Some c → args !! j' = Some a →
               col_type c = type_name a) ∧
    Table.insert self args disk
      = (Raise (ValidationError (Some
           ("Invalid type of field " +:+ dquote +:+ col_name col' +:+ dquote
            +:+ ": Given " +:+ dquote +:+ type_name arg' +:+ dquote
            +:+ ", expected " +:+ dquote +:+ col_type col' +:+ dquote))),
         disk) ∧
    Table.all self (Table.insert self args disk).2 = Table.all self disk.
Proof.
  intros Hcols Hlen Hc Ha Hne.
  destruct (insert_loop_mismatch cols 0 args [] i col arg) as
    (j & c' & a' & Hj & Hcj & Haj & Hnej & Hbefore & Hrun); try done.
  { intros j Hj. apply lookup_lt_is_Some. simpl. lia. }
  exists j, c', a'. simpl in *.
  assert (Table.insert self args disk
      = (Raise (ValidationError (Some (Table.invalid_type_message
                  (col_name c') (type_name a') (col_type c')))), disk)) as Hins.
  { unfold Table.insert. rewrite Hcols, Hlen, Nat.eqb_refl. simpl.
    by rewrite Hrun. }
  rewrite Hins. repeat split; done.
Qed.

(** The second insert of the specification's scenario: [("Bo", 2.5)] into
    [users], whose [age] is an [int]. *)
Lemma insert_type_mismatch_witness :
  ∃ j col' arg',
    (j ≤ 1)%nat ∧ Shop.users_columns !! j = Some col' ∧
    [VStr "Bo"; Shop.two_and_a_half] !! j = Some arg' ∧
    col_type col' ≠ type_name arg' ∧
    (∀ j' c a, (j' < j)%nat → Shop.users_columns !! j' = Some c →
       [VStr "Bo"; Shop.two_and_a_half] !! j' = Some a →
       col_type c = type_name a) ∧
    Table.insert Shop.users [VStr "Bo"; Shop.two_and_a_half] Shop.disk
      = (Raise (ValidationError (Some
           ("Invalid type of field " +:+ dquote +:+ col_name col' +:+ dquote
            +:+ ": Given " +:+ dquote +:+ type_name arg' +:+ dquote
            +:+ ", expected " +:+ dquote +:+ col_type col' +:+ dquote))),
         Shop.disk) ∧
    Table.all Shop.users
      (Table.insert Shop.users [VStr "Bo"; Shop.two_and_a_half] Shop.disk).2
      = Table.all Shop.users Shop.disk.
Proof.
  apply (insert_type_mismatch Shop.users Shop.users_columns
           [VStr "Bo"; Shop.two_and_a_half] Shop.disk 1
           {| col_name := "age"; col_type := "int" |} Shop.two_and_a_half);
    [reflexivity | reflexivity | reflexivity | reflexivity | discriminate].
Defined.

(** The message of that insert, in full. *)
Example insert_float_for_int :
  Table.insert Shop.users [VStr "Bo"; Shop.two_and_a_half] Shop.disk
    = (Raise (ValidationError (Some
         ("Invalid type of field " +:+ dquote +:+ "age" +:+ dquote
          +:+ ": Given " +:+ dquote +:+ "float" +:+ dquote
          +:+ ", expected " +:+ dquote +:+ "int" +:+ dquote))),
       Shop.disk).
Proof. reflexivity. Qed.


(** ** A successful [insert], and reading the rows back *)


(** When every value has the type of its column, the loop builds the dict
    that maps each column name to the value at its position (for a column
    name that occurs twice, the later value is kept). *)
Lemma insert_loop_types_match (cols : list Column) :
  ∀ (i0 : nat) (args : list value) (data : dict value),
    Forall2 (λ col arg, col_type col = type_name arg) cols (drop i0 args) →
    ∃ row,
      Table.insert_loop cols i0 args data = Ok row ∧
      (∀ k, k ∉ col_name <$> cols → dict_get k row = dict_get k data) ∧
      (NoDup (col_name <$> cols) →
       ∀ j col arg, cols !! j = Some col → args !! (i0 + j)%nat = Some arg →
                    dict_get (col_name col) row = Some arg).
Proof.
  induction cols as [| c cols IH]; intros i0 args data Hall.
  - exists data. split; [done |]. split; [done |]. intros _ j col arg Hc.
    by rewrite lookup_nil in Hc.
  - inversion Hall as [| c' a cols' rest Hty Hrest Hc Hdrop]; subst.
    assert (args !! i0 = Some a) as Ha.
    { rewrite <- (Nat.add_0_r i0), <- lookup_drop, <- Hdrop. done. }
    assert (drop (S i0) args = rest) as Hdrop'.
    { replace (S i0) with (i0 + 1)%nat by lia.
      by rewrite <- drop_drop, <- Hdrop. }
    destruct (IH (S i0) args (dict_set (col_name c) a data)) as
      (row & Hrun & Hother & Hget); [by rewrite Hdrop' |].
    exists row. simpl. rewrite Ha.
    destruct (String.eqb_spec (col_type c) (type_name a)); [| done].
    split; [done |]. split.
    + intros k Hk. rewrite Hother.
      * apply dict_get_set_ne. intros Heq. subst k. apply Hk. left.
      * intros Hin. apply Hk. by right.
    + intros Hnodup j col arg Hcj Haj.
      apply NoDup_cons in Hnodup as [Hfresh Hnodup].
      destruct j as [| j]; simpl in Hcj.
      * rewrite Nat.add_0_r in Haj. simplify_eq.
        rewrite Hother; [apply dict_get_set_eq | done].
      * apply (Hget Hnodup j col arg); [done |].
        by replace (S i0 + j)%nat with (i0 + S j)%nat by lia.
Qed.



(** [_write_row] on a file that [json.load] can read: the text of the
    dump, with the row appended, is written over the file, and no other
    file is touched. *)
Lemma write_row_Some (self : Table) (row : dict value) (disk : fs)
    (f : file) (data : tablefile) :
  lookup_file (table_filepath self) disk = Some f →
  parsed f = Some data →
  ∃ disk',
    Table._write_row self row disk = (Ok tt, disk') ∧
    lookup_file (table_filepath self) disk'
      = Some (overwritten f
                {| tf_columns := tf_columns data;
                   tf_rows := tf_rows data ++ [dict_map encode row] |}) ∧
    ∀ q, q ≠ table_filepath self → lookup_file q disk' = lookup_file q disk.
Proof.
  intros Hfile Hparsed. unfold Table._write_row.
  rewrite (bind_Ok _ _ _ _ _ (json_load_Some _ _ _ _ Hfile Hparsed)).
  unfold json_dump_over. unfold lookup_file in Hfile.
  destruct (disk !! (table_filepath self).1) as [d |] eqn:Hd; [| done].
  simpl in Hfile. rewrite Hfile.
  eexists; split; [reflexivity |]. split.
  - apply lookup_file_insert.
  - intros q Hq. by apply lookup_file_insert_ne.
Qed.

(** [all()] runs the loop over the rows that [json.load] returns. *)
Lemma all_Some (self : Table) (disk : fs) (f : file) (data : tablefile) :
  lookup_file (table_filepath self) disk = Some f →
  parsed f = Some data →
  Table.all self disk = Table.yield_rows (Table.loaded_rows data).
Proof.
  intros H Hp. unfold Table.all. by rewrite (json_load_Some _ _ _ _ H Hp).
Qed.

(** [all()] yields every stored row, in the stored order, when every
    stored row can be made a [Row]. *)
Lemma all_plain (self : Table) (disk : fs) (f : file) (data : tablefile) :
  lookup_file (table_filepath self) disk = Some f →
  parsed f = Some data →
  Forall plain_row (tf_rows data) →
  Table.all self disk = (Build_Row <$> Table.loaded_rows data, None).
Proof.
  intros H Hp Hrows. rewrite (all_Some _ _ _ _ H Hp).
  apply yield_rows_plain. unfold Table.loaded_rows.
  apply Forall_fmap. eapply Forall_impl; [exact Hrows |].
  intros row. apply plain_row_map.
Qed.

Lemma count_Some (self : Table) (disk : fs) (f : file) (data : tablefile) :
  lookup_file (table_filepath self) disk = Some f →
  parsed f = Some data →
  Table.count self disk = (Ok (length (tf_rows data)), disk).
Proof.
  intros H Hp. unfold Table.count.
  by rewrite (bind_Ok _ _ _ _ _ (json_load_Some _ _ _ _ H Hp)).
Qed.




(** ** [query] *)

Lemma yield_rows_app_gen (rows rows' : list (dict value)) :
  Table.yield_rows (rows ++ rows') =
    match Table.yield_rows rows with
    | (ys, Some e) => (ys, Some e)
    | (ys, None) => let '(zs, e) := Table.yield_rows rows' in (ys ++ zs, e)
    end.
Proof.
  induction rows as [| row rows IH]; simpl.
  - by destruct (Table.yield_rows rows').
  - destruct (Row_init row) as [r | e]; [| done]. rewrite IH.
    destruct (Table.yield_rows rows) as [ys [e |]]; [done |].
    by destruct (Table.yield_rows rows').
Qed.

(** On a row that has every key asked for, the inner loop builds
    [Row(row)] once for each keyword the row satisfies. *)
Lemma query_row_yields (row : dict value) (kwargs : dict value) :
  has_keys kwargs row →
  Table.query_row row kwargs
    = Table.yield_rows
        (replicate (length (List.filter (satisfies row) kwargs)) row).
Proof.
  induction 1 as [| [key v] kwargs [x Hx] _ IH]; [done |].
  simpl in *. rewrite Hx. unfold satisfies at 1. simpl. rewrite Hx.
  destruct (py_eq x v); [| done]. simpl. by rewrite IH.
Qed.

Lemma query_rows_yields (rows : list (dict value)) (kwargs : dict value) :
  Forall (has_keys kwargs) rows →
  Table.query_rows rows kwargs
    = Table.yield_rows
        (rows ≫= (λ row,
           replicate (length (List.filter (satisfies row) kwargs)) row)).
Proof.
  induction 1 as [| row rows Hrow _ IH]; [done |].
  simpl. rewrite (query_row_yields _ _ Hrow), IH.
  by rewrite yield_rows_app_gen.
Qed.

(** With one keyword, on rows that can be made [Row]s, the code and the
    specification agree. *)
Lemma query_rows_one_keyword (rows : list (dict value))
    (key : string) (v : value) :
  Forall (λ row, is_Some (dict_get key row)) rows →
  Forall plain_row rows →
  Table.query_rows rows [(key, v)] = (query_spec rows [(key, v)], None).
Proof.
  induction 1 as [| row rows [x Hx] _ IH]; [done |].
  intros [Hrow Hrows]%Forall_cons. specialize (IH Hrows).
  unfold query_spec in *. simpl. rewrite Hx, IH. unfold satisfies. simpl.
  rewrite Hx. destruct (py_eq x v); [| done]. simpl.
  by rewrite (Row_init_plain _ Hrow).
Qed.

(** With no keyword the inner loop has nothing to run over. *)
Lemma query_rows_no_keyword (rows : list (dict value)) :
  Table.query_rows rows [] = ([], None).
Proof. induction rows as [| row rows IH]; [done |]. simpl. by rewrite IH. Qed.

Lemma query_spec_no_keyword (rows : list (dict value)) :
  query_spec rows [] = Build_Row <$> rows.
Proof.
  unfold query_spec. f_equal. induction rows as [| row rows IH]; [done |].
  simpl. f_equal. exact IH.
Qed.

(** [query()] with no keyword yields nothing, on any table and any
    files. *)
Lemma query_no_keyword (self : Table) (disk : fs) :
  (Table.query self [] disk).1 = [].
Proof.
  unfold Table.query.
  destruct (json_load (table_filepath self) disk) as [[data | e] disk'];
    [| done].
  by rewrite query_rows_no_keyword.
Qed.

(** C1, on [users] of [shop], whose one row is [name = "Ana", age = 30]:
    [query(name="Ana", age=31)] yields that row, which the conjunction of
    the two keywords rejects, and [query(name="Ana", age=30)] yields it
    twice, where the conjunction yields it once. *)
Theorem query_two_keywords_on_shop :
  Table.query Shop.users [("name", VStr "Ana"); ("age", VInt 31)] Shop.disk
    = ([Shop.ana_row], None) ∧
  query_spec [row_attrs Shop.ana_row] [("name", VStr "Ana"); ("age", VInt 31)]
    = [] ∧
  Table.query Shop.users [("name", VStr "Ana"); ("age", VInt 30)] Shop.disk
    = ([Shop.ana_row; Shop.ana_row], None) ∧
  query_spec [row_attrs Shop.ana_row] [("name", VStr "Ana"); ("age", VInt 30)]
    = [Shop.ana_row].
Proof. repeat split; vm_compute; reflexivity. Qed.

(** C2, on [users] of [shop]: [query()] with no keyword yields nothing,
    while [all()] yields the stored row. *)
Theorem query_no_keyword_on_shop :
  Table.query Shop.users [] Shop.disk = ([], None) ∧
  Table.all Shop.users Shop.disk = ([Shop.ana_row], None) ∧
  query_spec [row_attrs Shop.ana_row] [] = [Shop.ana_row].
Proof. repeat split; vm_compute; reflexivity. Qed.

(** ** The catalog *)

(** C7: when the list [self.tables] holds the name, [create_table] raises
    [ValidationError] (with no message) before it touches anything: the
    object and the files are as they were, and [show_tables()] returns the
    same list. *)
Theorem create_table_duplicate (self : attrs) (disk : fs)
    (tables : list string) (table_name : string) (columns : schema) :
  self !! "tables" = Some (AList tables) →
  table_name ∈ tables →
  DataBase.create_table table_name columns (self, disk)
    = (Raise (ValidationError None), (self, disk)) ∧
  DataBase.show_tables
    (DataBase.create_table table_name columns (self, disk)).2.1
    = Ok (AList tables).
Proof.
  intros Htables Hin.
  assert (DataBase.create_table table_name columns (self, disk)
    = (Raise (ValidationError None), (self, disk))) as ->.
  { unfold DataBase.create_table, mbind, M_bind, get_state, raise.
    rewrite Htables. by rewrite bool_decide_eq_true_2. }
  split; [done |]. simpl. unfold DataBase.show_tables. by rewrite Htables.
Qed.

(** A second [users] in [shop]. *)
Lemma create_table_duplicate_witness :
  DataBase.create_table "users" (Some Shop.other_columns) (Shop.db, Shop.disk)
    = (Raise (ValidationError None), (Shop.db, Shop.disk)) ∧
  DataBase.show_tables
    (DataBase.create_table "users" (Some Shop.other_columns)
       (Shop.db, Shop.disk)).2.1
    = Ok (AList ["users"]).
Proof.
  apply (create_table_duplicate Shop.db Shop.disk ["users"] "users"
           (Some Shop.other_columns)).
  - vm_compute. reflexivity.
  - apply (bool_decide_unpack _). vm_compute. exact I.
Defined.

(** C8: [create] on a name whose directory is there raises
    [ValidationError('Database with name "<name>" already exists.')] and
    leaves every directory as it was; on a name whose directory is not
    there it makes that directory, empty, and changes no other. *)
Theorem create_existing_or_new (name : string) (disk : fs) :
  (is_Some (disk !! name) →
     DataBase.create name disk
       = (Raise (ValidationError (Some
            ("Database with name " +:+ dquote +:+ name +:+ dquote +:+
             " already exists."))), disk)) ∧
  (disk !! name = None →
     ∃ disk', DataBase.create name disk = (Ok tt, disk') ∧
       disk' !! name = Some ∅ ∧
       ∀ other, other ≠ name → disk' !! other = disk !! other).
Proof.
  unfold DataBase.create. split.
  - intros [d ->]. reflexivity.
  - intros ->. eexists; split; [reflexivity |]. split.
    + apply lookup_insert_eq.
    + intros other Hne. by apply lookup_insert_ne.
Qed.

(** [shop] is there, [library] is not. *)
Lemma create_existing_or_new_witness :
  DataBase.create "shop" Shop.disk
    = (Raise (ValidationError (Some
         ("Database with name " +:+ dquote +:+ "shop" +:+ dquote +:+
          " already exists."))), Shop.disk) ∧
  ∃ disk', DataBase.create "library" Shop.disk = (Ok tt, disk') ∧
    disk' !! "library" = Some ∅ ∧
    ∀ other, other ≠ "library" → disk' !! other = Shop.disk !! other.
Proof.
  split.
  - apply (proj1 (create_existing_or_new "shop" Shop.disk)).
    exists {[ "users.json" := Dumped Shop.users_file ]}.
    vm_compute. reflexivity.
  - apply (proj2 (create_existing_or_new "library" Shop.disk)).
    vm_compute. reflexivity.
Defined.

(** ** Reconnecting *)

(** The file names that [_read_tables] takes for tables: [n ++ ".json"]
    contains [.json], and stripping it gives back [n] when [n] itself does
    not contain [.json]. *)
Lemma contains_app_json (n : string) : contains ".json" (n +:+ ".json") = true.
Proof.
  induction n as [| c n IH]; [reflexivity |].
  change (String c n +:+ ".json") with (String c (n +:+ ".json")).
  cbn [contains]. rewrite IH. apply orb_true_r.
Qed.

Lemma string_app_cons (c : ascii) (s t : string) :
  String c s +:+ t = String c (s +:+ t).
Proof. reflexivity. Qed.
Lemma string_app_empty (t : string) : "" +:+ t = t.
Proof. reflexivity. Qed.

Lemma prefix_json_app (n : string) :
  String.prefix ".json" (n +:+ ".json") = true →
  n = "" ∨ String.prefix ".json" n = true.
Proof.
  destruct n as [| c1 [| c2 [| c3 [| c4 [| c5 n]]]]]; [by left | ..];
    intros H; right; revert H; rewrite ?string_app_cons, ?string_app_empty;
    cbn [String.prefix];
    repeat (destruct (ascii_dec _ _) as [Heq | ?];
            [try discriminate Heq; try subst | ];
            cbn [String.prefix]; try done).
  intros _. by destruct n.
Qed.

Lemma remove_all_app_json (n : string) :
  contains ".json" n = false → remove_all ".json" (n +:+ ".json") = n.
Proof.
  unfold remove_all. induction n as [| c n IH]; [reflexivity |].
  intros Hn. cbn [contains] in Hn. apply orb_false_iff in Hn as [Hpre Hn].
  change (String c n +:+ ".json") with (String c (n +:+ ".json")).
  cbn [remove_from].
  destruct (String.prefix ".json" (String c (n +:+ ".json"))) eqn:Hpre'.
  - destruct (prefix_json_app (String c n) Hpre') as [? | ?]; congruence.
  - by rewrite (IH Hn).
Qed.

(** The second loop of [_read_tables] on tables whose files are there:
    the files are left alone and every table is bound under its name. *)
Lemma bind_all_lookup (d : string) (disk : fs) (tables : list string) :
  ∀ (self : attrs) (n : string),
    bind_all d disk tables self !! n =
      if bool_decide (n ∈ tables) then Some (ATable (bound_table d disk n))
      else self !! n.
Proof.
  unfold bind_all.
  induction tables as [| m tables IH]; intros self n; [done |].
  simpl. rewrite IH.
  destruct (decide (n ∈ tables)) as [Hin | Hnin].
  - rewrite !bool_decide_eq_true_2; [done | by right | done].
  - rewrite (bool_decide_eq_false_2 _ Hnin).
    destruct (decide (n = m)) as [-> | Hne].
    + rewrite bool_decide_eq_true_2 by left. apply lookup_insert_eq.
    + rewrite bool_decide_eq_false_2.
      * by apply lookup_insert_ne.
      * intros [? | ?]%elem_of_cons; done.
Qed.

Lemma bind_tables_existing (d : string) (disk : fs) (tables : list string) :
  ∀ self : attrs,
    self !! "name" = Some (AStr d) →
    "name" ∉ tables →
    Forall settable tables →
    Forall (λ n, is_Some (lookup_file (d, n +:+ ".json") disk ≫= parsed))
      tables →
    DataBase.bind_tables tables (self, disk)
      = (Ok tt, (bind_all d disk tables self, disk)).
Proof.
  induction tables as [| n tables IH];
    intros self Hname Hfresh Hsettable Hfiles; [done |].
  apply not_elem_of_cons in Hfresh as [Hn Hfresh].
  apply Forall_cons in Hsettable as [Hset Hsettable].
  apply Forall_cons in Hfiles as [[data Hdata] Hfiles].
  destruct (lookup_file (d, n +:+ ".json") disk) as [f |] eqn:Hfile;
    [| done]. simpl in Hdata.
  cbn [DataBase.bind_tables].
  unfold mbind, M_bind, get_state, DataBase.on_disk, DataBase.setattr.
  rewrite (table_init_unfold _ _ _ _ _ Hname). simpl. rewrite Hfile. simpl.
  rewrite Hfile, Hdata. simpl.
  unfold settable in Hset. rewrite Hset. unfold DataBase.assign.
  rewrite IH; [| by rewrite lookup_insert_ne | done | done | done].
  unfold bind_all, bound_table. rewrite Hfile. cbn [mbind option_bind].
  by rewrite Hdata.
Qed.

Section connect.
Context (db_name : string) (dir : directory) (disk : fs).
Hypothesis Hdir : disk !! db_name = Some dir.
Hypothesis Hnames :
  ∀ f file, dir !! f = Some file → contains ".json" f = true →
    is_Some (parsed file) ∧
    ∃ n, f = n +:+ ".json" ∧ contains ".json" n = false ∧
         n ≠ "name" ∧ settable n.

Let tables : list string :=
  remove_all ".json" <$>
    filter (λ f, contains ".json" f) (map_to_list dir).*1.

Lemma lookup_file_dir (f : string) : lookup_file (db_name, f) disk = dir !! f.
Proof. unfold lookup_file. simpl. by rewrite Hdir. Qed.

Lemma scanned_table (n : string) :
  n ∈ tables →
  is_Some (dir !! (n +:+ ".json") ≫= parsed) ∧ n ≠ "name" ∧ settable n.
Proof.
  unfold tables.
  intros (f & -> & [Hjson Hf]%list_elem_of_filter)%list_elem_of_fmap.
  apply list_elem_of_fmap in Hf as ([f' file] & -> & Hin).
  apply elem_of_map_to_list in Hin. simpl in *.
  destruct (Hnames f' file Hin) as ([data Hdata] & n & -> & Hclean & Hn & Hset).
  { by apply Is_true_true. }
  rewrite (remove_all_app_json _ Hclean). split; [| done].
  rewrite Hin. simpl. by exists data.
Qed.

Lemma table_scanned (n : string) (file : file) :
  contains ".json" n = false → dir !! (n +:+ ".json") = Some file →
  n ∈ tables.
Proof.
  intros Hclean Hfile. unfold tables.
  apply list_elem_of_fmap. exists (n +:+ ".json").
  split; [by rewrite (remove_all_app_json _ Hclean) |].
  apply list_elem_of_filter. split.
  - apply Is_true_true, contains_app_json.
  - apply list_elem_of_fmap. exists (n +:+ ".json", file).
    split; [done |]. by apply elem_of_map_to_list.
Qed.

(** Connecting to a directory whose table files have plain names and can
    be read. *)
Lemma connect_plain_directory :
  ∃ db tables,
    connect_database db_name disk = (Ok db, disk) ∧
    DataBase.show_tables db = Ok (AList tables) ∧
    (∀ n, n ∈ tables → is_Some (dir !! (n +:+ ".json"))) ∧
    ∀ n file data,
      contains ".json" n = false → dir !! (n +:+ ".json") = Some file →
      parsed file = Some data →
      n ∈ tables ∧
      (n ≠ "tables" →
       ∃ t, db !! n = Some (ATable t) ∧
            Table.describe t = tf_columns data ∧
            Table.count t disk = (Ok (length (tf_rows data)), disk)).
Proof.
  set (self0 := <["db_filepath" := ADir db_name]>
                  (<["name" := AStr db_name]> (∅ : attrs))).
  exists (<["tables" := AList tables]> (bind_all db_name disk tables self0)),
         tables.
  split; [| split; [| split]].
  - unfold connect_database, DataBase.new, DataBase.__init__.
    unfold mbind, M_bind, DataBase.assign. simpl.
    unfold DataBase._read_tables, mbind, M_bind, get_state. simpl.
    fold self0. replace (self0 !! "db_filepath") with (Some (ADir db_name))
      by (symmetry; apply lookup_insert_eq).
    unfold DataBase.on_disk, DataBase.listdir. rewrite Hdir. fold tables.
    rewrite (bind_tables_existing db_name disk tables self0).
    + done.
    + unfold self0. by rewrite lookup_insert_ne, lookup_insert_eq.
    + intros Hin. by destruct (scanned_table _ Hin) as (_ & ? & _).
    + apply Forall_forall. intros n Hin.
      by destruct (scanned_table _ Hin) as (_ & _ & ?).
    + apply Forall_forall. intros n Hin. rewrite lookup_file_dir.
      by destruct (scanned_table _ Hin).
  - unfold DataBase.show_tables. by rewrite lookup_insert_eq.
  - intros n Hin. destruct (scanned_table _ Hin) as [[data Hdata] _].
    destruct (dir !! (n +:+ ".json")); [by eexists | done].
  - intros n file data Hclean Hfile Hparsed.
    pose proof (table_scanned n file Hclean Hfile) as Hin.
    split; [done |]. intros Hn.
    exists (bound_table db_name disk n). split; [| split].
    + rewrite lookup_insert_ne by done. rewrite bind_all_lookup.
      by rewrite bool_decide_eq_true_2.
    + unfold Table.describe, bound_table. simpl.
      by rewrite lookup_file_dir, Hfile; simpl; rewrite Hparsed.
    + apply (count_Some _ _ file); [| done]. simpl.
      by rewrite lookup_file_dir.
Qed.
End connect.

(** The sample database [shop] is what the code builds, and what
    [connect_database] finds again. *)
Example shop_built_by_the_code :
  ∃ db0 disk0 disk1,
    create_database "shop" ∅ = (Ok db0, disk0) ∧
    DataBase.create_table "users" (Some Shop.users_columns) (db0, disk0)
      = (Ok tt, (Shop.db, disk1)) ∧
    Table.insert Shop.users [VStr "Ana"; VInt 30] disk1 = (Ok tt, Shop.disk) ∧
    connect_database "shop" Shop.disk = (Ok Shop.db, Shop.disk).
Proof. do 3 eexists. repeat split; vm_compute; reflexivity. Qed.

(** C9, on a table whose name contains [.json]: [create_table("a.json", ..)]
    writes [a.json.json], and one row is inserted.  On reconnecting, the
    scan takes [a.json.json] for a table called [a]: the catalog is [["a"]],
    no attribute [a.json] is bound, and the table bound as [a] has a fresh
    file, no schema and no row. *)
Theorem connect_misses_dotted_table :
  (∃ db0 disk0 db1 disk1,
     create_database "shop" ∅ = (Ok db0, disk0) ∧
     DataBase.create_table "a.json" (Some Dotted.name_column) (db0, disk0)
       = (Ok tt, (db1, disk1)) ∧
     DataBase.show_tables db1 = Ok (AList ["a.json"]) ∧
     db1 !! "a.json" = Some (ATable Dotted.table) ∧
     Table.insert Dotted.table [VStr "Ana"] disk1 = (Ok tt, Dotted.disk)) ∧
  Table.describe Dotted.table = Some Dotted.name_column ∧
  Table.count Dotted.table Dotted.disk = (Ok 1%nat, Dotted.disk) ∧
  ∃ db,
    connect_database "shop" Dotted.disk = (Ok db, Dotted.disk_after) ∧
    DataBase.show_tables db = Ok (AList ["a"]) ∧
    db !! "a.json" = None ∧
    db !! "a" = Some (ATable Dotted.phantom) ∧
    Table.describe Dotted.phantom = None ∧
    Table.count Dotted.phantom Dotted.disk_after
      = (Ok 0%nat, Dotted.disk_after).
Proof.
  split; [do 4 eexists; repeat split; vm_compute; reflexivity |].
  split; [reflexivity |]. split; [vm_compute; reflexivity |].
  eexists. repeat split; vm_compute; reflexivity.
Qed.

(** X15: for a directory in which every file whose name contains [.json]
    can be read by [json.load] and is [<n>.json] for a name [n] that does
    not contain [.json], is not [name] and is accepted by [setattr],
    connecting leaves the files alone and finds every table again: the
    catalog lists exactly the tables of the directory, and each one is
    bound under its name (unless that name is [tables], which the catalog
    itself takes) with its persisted schema and its row count. *)
Theorem connect_rediscovers_tables (db_name : string) (dir : directory)
    (disk : fs) :
  disk !! db_name = Some dir →
  (∀ f file, dir !! f = Some file → contains ".json" f = true →
     is_Some (parsed file) ∧
     ∃ n, f = n +:+ ".json" ∧ contains ".json" n = false ∧
          n ≠ "name" ∧ settable n) →
  ∃ db tables,
    connect_database db_name disk = (Ok db, disk) ∧
    DataBase.show_tables db = Ok (AList tables) ∧
    (∀ n, n ∈ tables → is_Some (dir !! (n +:+ ".json"))) ∧
    ∀ n file data,
      contains ".json" n = false → dir !! (n +:+ ".json") = Some file →
      parsed file = Some data →
      n ∈ tables ∧
      (n ≠ "tables" →
       ∃ t, db !! n = Some (ATable t) ∧
            Table.describe t = tf_columns data ∧
            Table.count t disk = (Ok (length (tf_rows data)), disk)).
Proof. intros Hdir Hnames. by apply connect_plain_directory. Qed.

(** The sample database [shop] meets the conditions. *)
Lemma connect_rediscovers_tables_witness :
  ∃ db tables,
    connect_database "shop" Shop.disk = (Ok db, Shop.disk) ∧
    DataBase.show_tables db = Ok (AList tables) ∧
    (∀ n, n ∈ tables →
       is_Some (({[ "users.json" := Dumped Shop.users_file ]} : directory)
                  !! (n +:+ ".json"))) ∧
    ∀ n file data,
      contains ".json" n = false →
      ({[ "users.json" := Dumped Shop.users_file ]} : directory)
        !! (n +:+ ".json") = Some file →
      parsed file = Some data →
      n ∈ tables ∧
      (n ≠ "tables" →
       ∃ t, db !! n = Some (ATable t) ∧
            Table.describe t = tf_columns data ∧
            Table.count t Shop.disk = (Ok (length (tf_rows data)), Shop.disk)).
Proof.
  apply (connect_rediscovers_tables "shop"
           {[ "users.json" := Dumped Shop.users_file ]} Shop.disk).
  - vm_compute. reflexivity.
  - intros f file [<- <-]%lookup_singleton_Some _.
    split; [by eexists |]. exists "users". by repeat split.
Defined.

(** ** More on [query] *)

(** X1: with one keyword, on a table whose file can be read and whose
    stored rows all have that key, [query] runs the loop of [all] on the
    stored rows whose value under the key equals the value asked for, in
    the stored order; when [Row(..)] accepts every stored row, it yields
    exactly those rows, each once, and runs to its end. *)
Theorem query_one_keyword (self : Table) (disk : fs) (f : file)
    (data : tablefile) (key : string) (v : value) :
  lookup_file (table_filepath self) disk = Some f →
  parsed f = Some data →
  Forall (λ row, is_Some (dict_get key row)) (Table.loaded_rows data) →
  Table.query self [(key, v)] disk
    = Table.yield_rows
        (List.filter (λ row, satisfies row (key, v)) (Table.loaded_rows data)) ∧
  (Forall plain_row (Table.loaded_rows data) →
   Table.query self [(key, v)] disk
     = (Build_Row <$>
          List.filter (λ row, satisfies row (key, v)) (Table.loaded_rows data),
        None)).
Proof.
  intros Hfile Hparsed Hkeys. unfold Table.query.
  rewrite (json_load_Some _ _ _ _ Hfile Hparsed). split.
  - induction Hkeys as [| row rows [x Hx] _ IH]; [done |].
    simpl. rewrite Hx, IH. unfold satisfies at 2. simpl. rewrite Hx.
    destruct (py_eq x v); [| by destruct (Table.yield_rows _)].
    simpl. destruct (Row_init row) as [r | e]; [| done].
    by destruct (Table.yield_rows _).
  - intros Hplain. rewrite (query_rows_one_keyword _ _ _ Hkeys Hplain).
    unfold query_spec. simpl. do 2 f_equal. clear Hkeys Hplain.
    induction (Table.loaded_rows data) as [| row rows IH]; [done |].
    simpl. rewrite IH. by destruct (satisfies row (key, v)).
Qed.

Lemma query_one_keyword_witness :
  Table.query Shop.users [("age", VInt 30)] Shop.disk
    = Table.yield_rows
        (List.filter (λ row, satisfies row ("age", VInt 30))
           (Table.loaded_rows Shop.users_file)) ∧
  (Forall plain_row (Table.loaded_rows Shop.users_file) →
   Table.query Shop.users [("age", VInt 30)] Shop.disk
     = (Build_Row <$>
          List.filter (λ row, satisfies row ("age", VInt 30))
            (Table.loaded_rows Shop.users_file),
        None)).
Proof.
  apply (query_one_keyword Shop.users Shop.disk (Dumped Shop.users_file)
           Shop.users_file "age" (VInt 30)).
  - vm_compute. reflexivity.
  - reflexivity.
  - repeat constructor. vm_compute. by eexists.
Defined.

(** X2: on a table whose file can be read and whose stored rows have every
    key asked for, [query] runs the loop of [all] on the stored rows in the
    stored order, each repeated as many times as there are keywords it
    satisfies; when [Row(..)] accepts every stored row, it yields them all
    and runs to its end. *)
Theorem query_yields_per_keyword (self : Table) (disk : fs) (f : file)
    (data : tablefile) (kwargs : dict value) :
  lookup_file (table_filepath self) disk = Some f →
  parsed f = Some data →
  Forall (has_keys kwargs) (Table.loaded_rows data) →
  Table.query self kwargs disk
    = Table.yield_rows
        (Table.loaded_rows data ≫= (λ row,
           replicate (length (List.filter (satisfies row) kwargs)) row)) ∧
  (Forall plain_row (Table.loaded_rows data) →
   Table.query self kwargs disk
     = (Table.loaded_rows data ≫= (λ row,
          replicate (length (List.filter (satisfies row) kwargs))
            {| row_attrs := row |}),
        None)).
Proof.
  intros Hfile Hparsed Hkeys. unfold Table.query.
  rewrite (json_load_Some _ _ _ _ Hfile Hparsed).
  rewrite (query_rows_yields _ _ Hkeys). split; [done |].
  intros Hplain. rewrite yield_rows_plain.
  - f_equal. clear Hkeys Hplain.
    induction (Table.loaded_rows data) as [| row rows IH]; [done |].
    rewrite !bind_cons, fmap_app, IH. f_equal. apply fmap_replicate.
  - apply Forall_bind. eapply Forall_impl; [exact Hplain |].
    intros row Hrow. by apply Forall_replicate.
Qed.

Lemma query_yields_per_keyword_witness :
  Table.query Shop.users [("name", VStr "Ana"); ("age", VInt 30)] Shop.disk
    = Table.yield_rows
        (Table.loaded_rows Shop.users_file ≫= (λ row,
           replicate
             (length (List.filter (satisfies row)
                        [("name", VStr "Ana"); ("age", VInt 30)])) row)) ∧
  (Forall plain_row (Table.loaded_rows Shop.users_file) →
   Table.query Shop.users [("name", VStr "Ana"); ("age", VInt 30)] Shop.disk
     = (Table.loaded_rows Shop.users_file ≫= (λ row,
          replicate
            (length (List.filter (satisfies row)
                       [("name", VStr "Ana"); ("age", VInt 30)]))
            {| row_attrs := row |}),
        None)).
Proof.
  apply (query_yields_per_keyword Shop.users Shop.disk
           (Dumped Shop.users_file) Shop.users_file
           [("name", VStr "Ana"); ("age", VInt 30)]).
  - vm_compute. reflexivity.
  - reflexivity.
  - repeat constructor; vm_compute; by eexists.
Defined.

Lemma query_row_sound (row : dict value) (kwargs : dict value) (r : Row) :
  r ∈ (Table.query_row row kwargs).1 →
  Row_init row = Ok r ∧ ∃ kw, kw ∈ kwargs ∧ satisfies row kw = true.
Proof.
  induction kwargs as [| [key v] kwargs IH]; simpl.
  - by intros ?%elem_of_nil.
  - destruct (dict_get key row) as [x |] eqn:Hx; [| by intros ?%elem_of_nil].
    destruct (py_eq x v) eqn:Heq.
    + destruct (Row_init row) as [r' | e] eqn:Hinit;
        [| by intros ?%elem_of_nil].
      destruct (Table.query_row row kwargs) as [ys e]. simpl in *.
      intros [-> | Hin]%elem_of_cons.
      * split; [done |]. exists (key, v). split; [left |].
        unfold satisfies. simpl. by rewrite Hx.
      * destruct (IH Hin) as (Hr & kw & Hkw & Hsat). split; [done |].
        exists kw. split; [by right | done].
    + intros Hin. destruct (IH Hin) as (Hinit & kw & Hkw & Hsat).
      split; [done |]. exists kw. split; [by right | done].
Qed.

Lemma query_rows_sound (rows : list (dict value)) (kwargs : dict value)
    (r : Row) :
  r ∈ (Table.query_rows rows kwargs).1 →
  ∃ row, row ∈ rows ∧ Row_init row = Ok r ∧
         ∃ kw, kw ∈ kwargs ∧ satisfies row kw = true.
Proof.
  induction rows as [| row rows IH]; simpl; [by intros ?%elem_of_nil |].
  pose proof (query_row_sound row kwargs r) as Hrow.
  destruct (Table.query_row row kwargs) as [ys [e |]]; simpl in *.
  - intros Hin. destruct (Hrow Hin) as [Hinit Hkw]. exists row.
    split; [left | done].
  - destruct (Table.query_rows rows kwargs) as [zs e]. simpl in *.
    intros [Hin | Hin]%elem_of_app.
    + destruct (Hrow Hin) as [Hinit Hkw]. exists row. split; [left | done].
    + destruct (IH Hin) as (row' & Hin' & Hr). exists row'.
      split; [by right | done].
Qed.

(** X3: whatever the keywords and the files, a row that [query] yields is
    [Row(row)] for a row [row] stored in the file of the table, which
    [Row(..)] accepts and which satisfies at least one keyword. *)
Theorem query_yields_only_stored_matches (self : Table) (kwargs : dict value)
    (disk : fs) (r : Row) :
  r ∈ (Table.query self kwargs disk).1 →
  ∃ f data row,
    lookup_file (table_filepath self) disk = Some f ∧
    parsed f = Some data ∧
    row ∈ Table.loaded_rows data ∧
    Row_init row = Ok r ∧
    ∃ kw, kw ∈ kwargs ∧ satisfies row kw = true.
Proof.
  unfold Table.query, json_load.
  destruct (lookup_file (table_filepath self) disk) as [f |];
    [| by intros ?%elem_of_nil].
  destruct (parsed f) as [data |] eqn:Hparsed; [| by intros ?%elem_of_nil].
  intros (row & Hin & Hinit & Hkw)%query_rows_sound.
  by exists f, data, row.
Qed.

Lemma query_yields_only_stored_matches_witness :
  ∃ f data row,
    lookup_file (table_filepath Shop.users) Shop.disk = Some f ∧
    parsed f = Some data ∧
    row ∈ Table.loaded_rows data ∧
    Row_init row = Ok Shop.ana_row ∧
    ∃ kw, kw ∈ [("name", VStr "Ana"); ("age", VInt 31)] ∧
          satisfies row kw = true.
Proof.
  apply (query_yields_only_stored_matches Shop.users
           [("name", VStr "Ana"); ("age", VInt 31)] Shop.disk Shop.ana_row).
  vm_compute. left.
Defined.

(** An exception that ends the loop of [query] on one row is the
    [KeyError] of a keyword, or what [setattr] raises on a key of the
    row. *)
Lemma query_row_error (row : dict value) (kwargs : dict value)
    (ys : list Row) (e : exn) :
  Table.query_row row kwargs = (ys, Some e) →
  (∃ key, e = KeyError key ∧ key ∈ kwargs.*1) ∨
  (∃ k, k ∈ dict_keys row ∧ setattr_error k = Some e).
Proof.
  revert ys. induction kwargs as [| [key v] kwargs IH]; intros ys; simpl;
    [done |].
  assert (∀ zs, Table.query_row row kwargs = (zs, Some e) →
    (∃ key0, e = KeyError key0 ∧ key0 ∈ key :: kwargs.*1) ∨
    (∃ k, k ∈ dict_keys row ∧ setattr_error k = Some e)) as Hrest.
  { intros zs [(k & -> & Hin) | Hset]%IH; [left | by right].
    exists k. split; [done | by right]. }
  destruct (dict_get key row) as [x |] eqn:Hx.
  - destruct (py_eq x v); [| by apply Hrest].
    unfold Row_init.
    destruct (Row_setattrs row []) as [attrs | e'] eqn:Hinit.
    + destruct (Table.query_row row kwargs) as [zs [e' |]]; [| done].
      intros [= _ ->]. by apply (Hrest zs).
    + intros [= _ ->]. right. by apply (Row_setattrs_Raise row []).
  - intros [= _ <-]. left. exists key. split; [done | left].
Qed.

Lemma query_row_missing (row : dict value) (kwargs : dict value)
    (kw : string * value) :
  kw ∈ kwargs → dict_get kw.1 row = None →
  ∃ ys e, Table.query_row row kwargs = (ys, Some e).
Proof.
  intros Hin Hmiss. induction kwargs as [| [key v] kwargs IH];
    [by apply elem_of_nil in Hin |]. simpl.
  destruct (dict_get key row) as [x |] eqn:Hx; [| by eauto].
  apply elem_of_cons in Hin as [-> | Hin]; [simpl in Hmiss; congruence |].
  destruct (IH Hin) as (ys & e & Hq).
  destruct (py_eq x v); [| by eauto].
  destruct (Row_init row) as [r | e']; [| by eauto].
  rewrite Hq. eauto.
Qed.

Lemma query_rows_missing (rows : list (dict value)) (kwargs : dict value)
    (row : dict value) (kw : string * value) :
  row ∈ rows → kw ∈ kwargs → dict_get kw.1 row = None →
  ∃ ys e, Table.query_rows rows kwargs = (ys, Some e) ∧
    ((∃ key, e = KeyError key ∧ key ∈ kwargs.*1) ∨
     (∃ row' k, row' ∈ rows ∧ k ∈ dict_keys row' ∧ setattr_error k = Some e)).
Proof.
  intros Hrow Hkw Hmiss. induction rows as [| row' rows IH];
    [by apply elem_of_nil in Hrow |]. simpl.
  destruct (Table.query_row row' kwargs) as [ys [e |]] eqn:Hq.
  - exists ys, e. split; [done |].
    destruct (query_row_error _ _ _ _ Hq) as [Hkey | (k & Hk & Hset)];
      [by left | right].
    exists row', k. split; [left | done].
  - apply elem_of_cons in Hrow as [<- | Hrow].
    + destruct (query_row_missing row kwargs kw Hkw Hmiss) as (? & ? & ?).
      congruence.
    + destruct (IH Hrow) as (zs & e & -> & [Hkey | (r' & k & Hr' & Hk)]).
      * exists (ys ++ zs), e. split; [done | by left].
      * exists (ys ++ zs), e. split; [done | right].
        exists r', k. split; [by right | done].
Qed.

(** X4: when the file of the table can be read and a stored row lacks the
    key of one of the keywords, [query] ends with an exception: the
    [KeyError] of a key taken from the keywords, or what [setattr] raises
    on a key of a stored row; it is the [KeyError] when [Row(..)] accepts
    every stored row. *)
Theorem query_missing_key (self : Table) (disk : fs) (f : file)
    (data : tablefile) (kwargs : dict value) (row : dict value)
    (kw : string * value) :
  lookup_file (table_filepath self) disk = Some f →
  parsed f = Some data →
  row ∈ Table.loaded_rows data → kw ∈ kwargs → dict_get kw.1 row = None →
  ∃ ys e,
    Table.query self kwargs disk = (ys, Some e) ∧
    ((∃ key, e = KeyError key ∧ key ∈ kwargs.*1) ∨
     (∃ row' k, row' ∈ Table.loaded_rows data ∧ k ∈ dict_keys row' ∧
                setattr_error k = Some e)) ∧
    (Forall plain_row (Table.loaded_rows data) →
     ∃ key, e = KeyError key ∧ key ∈ kwargs.*1).
Proof.
  intros Hfile Hparsed Hrow Hkw Hmiss. unfold Table.query.
  rewrite (json_load_Some _ _ _ _ Hfile Hparsed).
  destruct (query_rows_missing _ _ _ _ Hrow Hkw Hmiss) as (ys & e & -> & He).
  exists ys, e. split; [done |]. split; [done |]. intros Hplain.
  destruct He as [Hkey | (row' & k & Hin & Hk & Hset)]; [done |].
  pose proof (proj1 (Forall_forall _ _) Hplain row' Hin) as [_ Hok].
  pose proof (proj1 (Forall_forall _ _) Hok k Hk) as Hsettable.
  unfold settable in Hsettable. congruence.
Qed.

Lemma query_missing_key_witness :
  ∃ ys e,
    Table.query Shop.users [("name", VStr "Ana"); ("city", VStr "Rio")]
      Shop.disk = (ys, Some e) ∧
    ((∃ key, e = KeyError key ∧
             key ∈ [("name", VStr "Ana"); ("city", VStr "Rio")].*1) ∨
     (∃ row' k, row' ∈ Table.loaded_rows Shop.users_file ∧
                k ∈ dict_keys row' ∧ setattr_error k = Some e)) ∧
    (Forall plain_row (Table.loaded_rows Shop.users_file) →
     ∃ key, e = KeyError key ∧
            key ∈ [("name", VStr "Ana"); ("city", VStr "Rio")].*1).
Proof.
  apply (query_missing_key Shop.users Shop.disk (Dumped Shop.users_file)
           Shop.users_file [("name", VStr "Ana"); ("city", VStr "Rio")]
           (row_attrs Shop.ana_row) ("city", VStr "Rio")).
  - vm_compute. reflexivity.
  - reflexivity.
  - vm_compute. left.
  - right. left.
  - vm_compute. reflexivity.
Defined.

Lemma py_eq_decode_date (j : json) (y m d : Z) :
  py_eq (decode j) (VDate y m d) = false.
Proof. by destruct j. Qed.

(** X5: a query with one keyword whose value is a date yields no row, on
    any table: no value read back from a file is a date. *)
Theorem query_by_date_yields_nothing (self : Table) (key : string)
    (y m d : Z) (disk : fs) :
  (Table.query self [(key, VDate y m d)] disk).1 = [].
Proof.
  unfold Table.query.
  destruct (json_load (table_filepath self) disk) as [[data | e] disk'];
    [| done].
  unfold Table.loaded_rows.
  induction (tf_rows data) as [| row rows IH]; [done |].
  simpl. rewrite dict_get_map.
  destruct (dict_get key row) as [j |]; simpl; [| done].
  rewrite py_eq_decode_date. simpl.
  by destruct (Table.query_rows _ _).
Qed.

(** ** What [insert] does to the files *)

Lemma write_row_inv (self : Table) (row : dict value) (disk disk' : fs)
    (r : result unit) :
  Table._write_row self row disk = (r, disk') →
  (∃ e, r = Raise e ∧ disk' = disk) ∨
  (∃ f data, r = Ok tt ∧
     lookup_file (table_filepath self) disk = Some f ∧
     parsed f = Some data ∧
     lookup_file (table_filepath self) disk'
       = Some (overwritten f
                 {| tf_columns := tf_columns data;
                    tf_rows := tf_rows data ++ [dict_map encode row] |}) ∧
     ∀ q, q ≠ table_filepath self → lookup_file q disk' = lookup_file q disk).
Proof.
  destruct (lookup_file (table_filepath self) disk) as [f |] eqn:Hfile.
  - destruct (parsed f) as [data |] eqn:Hparsed.
    + destruct (write_row_Some self row disk f data Hfile Hparsed)
        as (d & -> & Hnew & Hfr).
      intros [= <- <-]. right. by exists f, data.
    + unfold Table._write_row, json_load, mbind, M_bind.
      rewrite Hfile, Hparsed. intros [= <- <-]. left. by eexists.
  - unfold Table._write_row.
    rewrite (bind_Raise _ _ _ _ _ (json_load_None _ _ Hfile)).
    intros [= <- <-]. left. by eexists.
Qed.



(** X7: [insert] either returns normally or raises with the files exactly
    as they were. *)
Theorem insert_Ok_or_unchanged (self : Table) (args : list value) (disk : fs) :
  (∃ disk', Table.insert self args disk = (Ok tt, disk')) ∨
  (∃ e, Table.insert self args disk = (Raise e, disk)).
Proof.
  destruct (Table.insert self args disk) as [[[] | e] disk'] eqn:Hins;
    [left; by eexists |].
  right. exists e. f_equal. revert Hins.
  unfold Table.insert, raise. destruct (columns self) as [cols |];
    [| by intros [= _ <-]].
  destruct (negb _); [by intros [= _ <-] |].
  destruct (Table.insert_loop cols 0 args []) as [data_row | e'];
    [| by intros [= _ <-]].
  by intros [(? & _ & ->) | (? & ? & ? & _)]%write_row_inv.
Qed.




Lemma yield_rows_length (rows : list (dict value)) :
  (length (Table.yield_rows rows).1 ≤ length rows)%nat ∧
  ((Table.yield_rows rows).2 = None →
   length (Table.yield_rows rows).1 = length rows).
Proof.
  induction rows as [| row rows [IHle IHeq]]; [done |]. simpl.
  destruct (Row_init row) as [r | e]; simpl; [| split; [lia | done]].
  destruct (Table.yield_rows rows) as [ys e]. simpl in *.
  split; [lia |]. intros He. by rewrite IHeq.
Qed.

(** X9: when [count()] returns [n], [all()] yields at most [n] rows, and
    exactly [n] when it runs to its end, which it does when [Row(..)]
    accepts every stored row. *)
Theorem all_yields_count_rows (self : Table) (disk : fs) (n : nat) :
  Table.count self disk = (Ok n, disk) →
  (length (Table.all self disk).1 ≤ n)%nat ∧
  ((Table.all self disk).2 = None → length (Table.all self disk).1 = n) ∧
  ∃ f data,
    lookup_file (table_filepath self) disk = Some f ∧
    parsed f = Some data ∧
    (Forall plain_row (tf_rows data) →
     ∃ rows, Table.all self disk = (rows, None) ∧ length rows = n).
Proof.
  unfold Table.count, Table.all, mbind, M_bind, json_load.
  destruct (lookup_file (table_filepath self) disk) as [f |]; [| done].
  destruct (parsed f) as [data |] eqn:Hparsed; [| done].
  intros [= <-].
  assert (length (Table.loaded_rows data) = length (tf_rows data)) as Hlen
    by (unfold Table.loaded_rows; apply length_fmap).
  destruct (yield_rows_length (Table.loaded_rows data)) as [Hle Heq].
  rewrite Hlen in Hle, Heq.
  split; [done |]. split; [done |]. exists f, data.
  split; [done |]. split; [done |]. intros Hplain.
  rewrite yield_rows_plain.
  - eexists. split; [done |]. by rewrite length_fmap.
  - unfold Table.loaded_rows. apply Forall_fmap.
    eapply Forall_impl; [exact Hplain |]. intros row. apply plain_row_map.
Qed.

Lemma all_yields_count_rows_witness :
  (length (Table.all Shop.users Shop.disk).1 ≤ 1)%nat ∧
  ((Table.all Shop.users Shop.disk).2 = None →
   length (Table.all Shop.users Shop.disk).1 = 1%nat) ∧
  ∃ f data,
    lookup_file (table_filepath Shop.users) Shop.disk = Some f ∧
    parsed f = Some data ∧
    (Forall plain_row (tf_rows data) →
     ∃ rows, Table.all Shop.users Shop.disk = (rows, None) ∧
             length rows = 1%nat).
Proof.
  apply (all_yields_count_rows Shop.users Shop.disk 1).
  vm_compute. reflexivity.
Defined.

(** An insert of values that have the types of the columns, on a file
    that is not a dump the program wrote but that [json.load] reads:
    [insert] returns normally, and the file is what the write from
    position 0 makes of it; when that is a text [json.load] rejects, the
    table can no longer be read. *)
Lemma insert_over_foreign_file (self : Table) (cols : list Column)
    (args : list value) (disk : fs) (data : tablefile)
    (over : tablefile → file) :
  columns self = Some cols →
  Forall2 (λ col arg, col_type col = type_name arg) cols args →
  lookup_file (table_filepath self) disk = Some (Foreign (Some data) over) →
  ∃ disk' row,
    Table.insert self args disk = (Ok tt, disk') ∧
    lookup_file (table_filepath self) disk'
      = Some (over {| tf_columns := tf_columns data;
                      tf_rows := tf_rows data ++ [row] |}) ∧
    (parsed (over {| tf_columns := tf_columns data;
                     tf_rows := tf_rows data ++ [row] |}) = None →
     Table.count self disk' = (Raise JSONDecodeError, disk') ∧
     Table.all self disk' = ([], Some JSONDecodeError)).
Proof.
  intros Hcols Htypes Hfile.
  destruct (insert_loop_types_match cols 0 args []) as
    (data_row & Hrun & _); [done |].
  destruct (write_row_Some self data_row disk _ data Hfile eq_refl) as
    (disk' & Hwrite & Hnew & Hframe).
  exists disk', (dict_map encode data_row). simpl in Hnew.
  split; [| split; [done |]].
  - unfold Table.insert. rewrite Hcols.
    rewrite (Forall2_length _ _ _ Htypes), Nat.eqb_refl. simpl.
    by rewrite Hrun.
  - intros Hbad.
    unfold Table.count, Table.all, mbind, M_bind, json_load.
    by rewrite Hnew, Hbad.
Qed.

(** ** Opening never overwrites *)

#[global] Instance keeps_files_preorder : PreOrder keeps_files.
Proof.
  split.
  - by intros disk.
  - intros d1 d2 d3 [Hf12 Hd12] [Hf23 Hd23]. split.
    + intros q data H. by apply Hf23, Hf12.
    + intros d. by rewrite Hd23.
Qed.

Lemma keeps_files_new_file (disk : fs) (d f : string) (dir : directory)
    (new : file) :
  disk !! d = Some dir → dir !! f = None →
  keeps_files disk (<[d := <[f := new]> dir]> disk).
Proof.
  intros Hdir Hfile. split.
  - intros q old Hq.
    pose proof (lookup_file_insert_ne (d, f) q dir new disk Hdir) as Hne.
    simpl in Hne. rewrite Hne; [done |].
    intros <-. unfold lookup_file in Hq. simpl in Hq. rewrite Hdir in Hq.
    simpl in Hq. congruence.
  - intros d'. destruct (decide (d = d')) as [<- | Hne].
    + rewrite lookup_insert_eq, Hdir. split; eauto.
    + by rewrite lookup_insert_ne.
Qed.

Lemma table_init_keeps_files (db : attrs) (name : string) (columns : schema)
    (disk : fs) :
  keeps_files disk (Table.__init__ db name columns disk).2.
Proof.
  destruct (db !! "name") as [[db_name | | |] |] eqn:Hname;
    try (unfold Table.__init__; rewrite Hname; reflexivity).
  rewrite (table_init_unfold _ _ _ _ _ Hname). simpl.
  destruct (lookup_file (db_name, name +:+ ".json") disk) as [f |]
    eqn:Hfile.
  { rewrite Hfile. destruct (truthy columns); [done |].
    by destruct (parsed f). }
  destruct (disk !! db_name) as [dir |] eqn:Hdir; [| by rewrite Hfile].
  pose proof (lookup_file_insert (db_name, name +:+ ".json") dir
    (Dumped {| tf_columns := columns; tf_rows := [] |}) disk) as Hnew.
  simpl in Hnew. rewrite Hnew. simpl.
  assert (keeps_files disk
    (<[db_name := <[name +:+ ".json" :=
        Dumped {| tf_columns := columns; tf_rows := [] |}]> dir]> disk))
    as Hkeeps.
  { apply keeps_files_new_file; [done |].
    unfold lookup_file in Hfile. simpl in Hfile. by rewrite Hdir in Hfile. }
  by destruct (truthy columns).
Qed.

(** X10: in a database directory that has no file for the table,
    [Table(db, name, columns)] writes the file with that schema and no row
    and adds or changes nothing else; the handle describes itself with the
    schema passed in, [count()] is 0 and [all()] yields nothing. *)
Theorem table_init_fresh (db : attrs) (db_name name : string)
    (columns : schema) (dir : directory) (disk : fs) :
  db !! "name" = Some (AStr db_name) →
  disk !! db_name = Some dir →
  dir !! (name +:+ ".json") = None →
  ∃ t disk',
    Table.__init__ db name columns disk = (Ok t, disk') ∧
    Table.describe t = columns ∧
    lookup_file (table_filepath t) disk'
      = Some (Dumped {| tf_columns := columns; tf_rows := [] |}) ∧
    Table.count t disk' = (Ok 0%nat, disk') ∧
    Table.all t disk' = ([], None) ∧
    keeps_files disk disk'.
Proof.
  intros Hname Hdir Hfile.
  pose proof (table_init_keeps_files db name columns disk) as Hkeeps.
  rewrite (table_init_unfold _ _ _ _ _ Hname) in *. simpl in *.
  assert (lookup_file (db_name, name +:+ ".json") disk = None) as Hnone.
  { unfold lookup_file. simpl. by rewrite Hdir. }
  rewrite Hnone, Hdir in *.
  pose proof (lookup_file_insert (db_name, name +:+ ".json") dir
    (Dumped {| tf_columns := columns; tf_rows := [] |}) disk) as Hnew.
  simpl in Hnew. rewrite Hnew in *. simpl in *.
  set (t := {| name := name;
               table_filepath := (db_name, name +:+ ".json");
               columns := columns |}).
  exists t, (<[db_name := <[name +:+ ".json" :=
               Dumped {| tf_columns := columns; tf_rows := [] |}]> dir]> disk).
  split; [by destruct (truthy columns) |]. split; [done |].
  split; [done |].
  split; [by rewrite (count_Some t _ _ _ Hnew eq_refl) |].
  split; [by rewrite (all_Some t _ _ _ Hnew eq_refl) |].
  by destruct (truthy columns).
Qed.

Lemma table_init_fresh_witness :
  ∃ t disk',
    Table.__init__ Shop.db "orders" (Some Shop.other_columns) Shop.disk
      = (Ok t, disk') ∧
    Table.describe t = Some Shop.other_columns ∧
    lookup_file (table_filepath t) disk'
      = Some (Dumped {| tf_columns := Some Shop.other_columns;
                        tf_rows := [] |}) ∧
    Table.count t disk' = (Ok 0%nat, disk') ∧
    Table.all t disk' = ([], None) ∧
    keeps_files Shop.disk disk'.
Proof.
  apply (table_init_fresh Shop.db "shop" "orders" (Some Shop.other_columns)
           {[ "users.json" := Dumped Shop.users_file ]} Shop.disk);
    vm_compute; reflexivity.
Defined.

(** X11: a table opened with no schema, whose file is new or persists a
    null schema, has the schema [None], and every [insert] on it raises
    [TypeError] and writes nothing. *)
Theorem table_without_schema_rejects_insert (db : attrs)
    (db_name name : string) (dir : directory) (disk : fs) :
  db !! "name" = Some (AStr db_name) →
  disk !! db_name = Some dir →
  (∀ f, dir !! (name +:+ ".json") = Some f →
        ∃ data, parsed f = Some data ∧ tf_columns data = None) →
  ∃ t disk',
    Table.__init__ db name None disk = (Ok t, disk') ∧
    Table.describe t = None ∧
    ∀ args disk2, Table.insert t args disk2 = (Raise TypeError, disk2).
Proof.
  intros Hname Hdir Hnull.
  rewrite (table_init_unfold _ _ _ _ _ Hname). simpl.
  assert (lookup_file (db_name, name +:+ ".json") disk
            = dir !! (name +:+ ".json")) as ->.
  { unfold lookup_file. simpl. by rewrite Hdir. }
  rewrite Hdir.
  destruct (dir !! (name +:+ ".json")) as [f |] eqn:Hfile.
  - assert (lookup_file (db_name, name +:+ ".json") disk = Some f) as ->.
    { unfold lookup_file. simpl. by rewrite Hdir. }
    destruct (Hnull f eq_refl) as (data & -> & Hcolumns).
    eexists _, _. split; [reflexivity |]. simpl.
    rewrite Hcolumns. by split.
  - pose proof (lookup_file_insert (db_name, name +:+ ".json") dir
      (Dumped {| tf_columns := None; tf_rows := [] |}) disk) as Hnew.
    simpl in Hnew. rewrite Hnew.
    eexists _, _. split; [reflexivity |]. by split.
Qed.

Lemma table_without_schema_rejects_insert_witness :
  ∃ t disk',
    Table.__init__ Shop.db "orders" None Shop.disk = (Ok t, disk') ∧
    Table.describe t = None ∧
    ∀ args disk2, Table.insert t args disk2 = (Raise TypeError, disk2).
Proof.
  apply (table_without_schema_rejects_insert Shop.db "shop" "orders"
           {[ "users.json" := Dumped Shop.users_file ]} Shop.disk).
  - vm_compute. reflexivity.
  - vm_compute. reflexivity.
  - intros f. vm_compute. discriminate.
Defined.

(** ** More on the catalog *)

(** X12: [create_table] with a name that is not in the catalog, in a
    database directory that has no file for it, writes the file with the
    schema and no row and appends the name to the catalog; it then binds
    the new table under its name and returns, unless [setattr] refuses the
    name: the call then raises what [setattr] raises, with the file
    written and the name in the catalog.  The [count()] of the new table
    is 0. *)
Theorem create_table_new (self : attrs) (disk : fs) (tables : list string)
    (db_name table_name : string) (columns : schema) (dir : directory) :
  self !! "tables" = Some (AList tables) →
  table_name ∉ tables →
  self !! "name" = Some (AStr db_name) →
  disk !! db_name = Some dir →
  dir !! (table_name +:+ ".json") = None →
  let t := {| name := table_name;
              table_filepath := (db_name, table_name +:+ ".json");
              columns := columns |} in
  let self1 := <["tables" := AList (tables ++ [table_name])]> self in
  let self' := <[table_name := ATable t]> self1 in
  let disk' := <[db_name := <[table_name +:+ ".json" :=
                   Dumped {| tf_columns := columns; tf_rows := [] |}]> dir]>
                 disk in
  DataBase.create_table table_name columns (self, disk)
    = match setattr_error table_name with
      | None => (Ok tt, (self', disk'))
      | Some e => (Raise e, (self1, disk'))
      end ∧
  self' !! table_name = Some (ATable t) ∧
  (table_name ≠ "tables" →
   DataBase.show_tables self' = Ok (AList (tables ++ [table_name])) ∧
   DataBase.show_tables self1 = Ok (AList (tables ++ [table_name]))) ∧
  Table.count t disk' = (Ok 0%nat, disk').
Proof.
  intros Htables Hnew Hname Hdir Hfile t self1 self' disk'.
  assert (lookup_file (db_name, table_name +:+ ".json") disk' =
            Some (Dumped {| tf_columns := columns; tf_rows := [] |}))
    as Hwritten.
  { apply (lookup_file_insert (db_name, table_name +:+ ".json")). }
  split; [| split; [| split]].
  - unfold DataBase.create_table, mbind, M_bind, get_state. rewrite Htables.
    rewrite bool_decide_eq_false_2 by done.
    unfold DataBase.on_disk. rewrite (table_init_unfold _ _ _ _ _ Hname).
    simpl.
    assert (lookup_file (db_name, table_name +:+ ".json") disk = None) as ->.
    { unfold lookup_file. simpl. by rewrite Hdir. }
    rewrite Hdir. fold disk'. rewrite Hwritten. simpl.
    unfold DataBase.setattr, DataBase.assign, raise. fold self1.
    destruct (truthy columns); simpl; fold self1;
      by destruct (setattr_error table_name).
  - apply lookup_insert_eq.
  - intros Hne. unfold DataBase.show_tables, self', self1.
    by rewrite lookup_insert_ne, lookup_insert_eq.
  - by rewrite (count_Some t _ _ _ Hwritten eq_refl).
Qed.

Lemma create_table_new_witness :
  let t := {| name := "orders";
              table_filepath := ("shop", "orders" +:+ ".json");
              columns := Some Shop.other_columns |} in
  let self1 := <["tables" := AList (["users"] ++ ["orders"])]> Shop.db in
  let self' := <["orders" := ATable t]> self1 in
  let disk' := <["shop" := <["orders" +:+ ".json" :=
                   Dumped {| tf_columns := Some Shop.other_columns;
                             tf_rows := [] |}]>
                     {[ "users.json" := Dumped Shop.users_file ]}]>
                 Shop.disk in
  DataBase.create_table "orders" (Some Shop.other_columns)
      (Shop.db, Shop.disk)
    = match setattr_error "orders" with
      | None => (Ok tt, (self', disk'))
      | Some e => (Raise e, (self1, disk'))
      end ∧
  self' !! "orders" = Some (ATable t) ∧
  ("orders" ≠ "tables" →
   DataBase.show_tables self' = Ok (AList (["users"] ++ ["orders"])) ∧
   DataBase.show_tables self1 = Ok (AList (["users"] ++ ["orders"]))) ∧
  Table.count t disk' = (Ok 0%nat, disk').
Proof.
  apply (create_table_new Shop.db Shop.disk ["users"] "shop" "orders"
           (Some Shop.other_columns)
           {[ "users.json" := Dumped Shop.users_file ]}).
  - vm_compute. reflexivity.
  - intros [[=] | []%elem_of_nil]%elem_of_cons.
  - vm_compute. reflexivity.
  - vm_compute. reflexivity.
  - vm_compute. reflexivity.
Defined.


Lemma bind_tables_keeps_files (tables : list string) :
  ∀ (self : attrs) (disk : fs),
    keeps_files disk (DataBase.bind_tables tables (self, disk)).2.2.
Proof.
  induction tables as [| table tables IH]; intros self disk; [reflexivity |].
  cbn [DataBase.bind_tables].
  unfold mbind, M_bind, get_state, DataBase.on_disk, DataBase.setattr.
  pose proof (table_init_keeps_files self table None disk) as Hkeeps.
  destruct (Table.__init__ self table None disk) as [[t | e] disk1];
    [| done].
  unfold DataBase.assign, raise.
  destruct (setattr_error table); [done |].
  simpl in *. etrans; [exact Hkeeps |]. apply IH.
Qed.

(** X14: whatever its outcome, [connect_database] changes or removes no
    file that was there and makes no directory. *)
Theorem connect_keeps_files (db_name : string) (disk : fs) :
  keeps_files disk (connect_database db_name disk).2.
Proof.
  unfold connect_database, DataBase.new, DataBase.__init__.
  unfold mbind, M_bind, DataBase.assign. simpl.
  unfold DataBase._read_tables, mbind, M_bind, get_state. simpl.
  rewrite lookup_insert_eq.
  unfold DataBase.on_disk, DataBase.listdir.
  destruct (disk !! db_name) as [dir |]; [| reflexivity].
  match goal with
  | |- context [DataBase.bind_tables ?ts ?st] =>
      pose proof (bind_tables_keeps_files ts st.1 st.2) as Hkeeps;
      simpl in Hkeeps;
      destruct (DataBase.bind_tables ts st) as [[[] | e] [self' disk']]
  end; done.
Qed.

(** X16: connecting to a database whose directory is not there raises the
    error of [os.listdir] and leaves the files as they are. *)
Theorem connect_missing_directory (db_name : string) (disk : fs) :
  disk !! db_name = None →
  connect_database db_name disk = (Raise FileNotFoundError, disk).
Proof.
  intros Hdir.
  unfold connect_database, DataBase.new, DataBase.__init__.
  unfold mbind, M_bind, DataBase.assign. simpl.
  unfold DataBase._read_tables, mbind, M_bind, get_state. simpl.
  rewrite lookup_insert_eq.
  unfold DataBase.on_disk, DataBase.listdir. by rewrite Hdir.
Qed.

Lemma connect_missing_directory_witness :
  connect_database "library" Shop.disk = (Raise FileNotFoundError, Shop.disk).
Proof.
  apply (connect_missing_directory "library" Shop.disk).
  vm_compute. reflexivity.
Defined.

(** X17: [create_database] with a name whose directory is not there makes
    the empty directory and returns a database with that name and an empty
    catalog. *)
Theorem create_database_new (db_name : string) (disk : fs) :
  disk !! db_name = None →
  ∃ db,
    create_database db_name disk = (Ok db, <[db_name := ∅]> disk) ∧
    DataBase.show_tables db = Ok (AList []) ∧
    db !! "name" = Some (AStr db_name).
Proof.
  intros Hdir.
  exists (<["tables" := AList []]> (<["db_filepath" := ADir db_name]>
            (<["name" := AStr db_name]> ∅))).
  split; [| split].
  - unfold create_database, mbind, M_bind, DataBase.create. rewrite Hdir.
    unfold connect_database, DataBase.new, DataBase.__init__.
    unfold mbind, M_bind, DataBase.assign. simpl.
    unfold DataBase._read_tables, mbind, M_bind, get_state. simpl.
    rewrite lookup_insert_eq.
    unfold DataBase.on_disk, DataBase.listdir.
    assert ((<[db_name := ∅]> disk : fs) !! db_name = Some ∅) as ->
      by apply lookup_insert_eq.
    by rewrite map_to_list_empty.
  - unfold DataBase.show_tables. by rewrite lookup_insert_eq.
  - do 2 (rewrite lookup_insert_ne by done). apply lookup_insert_eq.
Qed.

Lemma create_database_new_witness :
  ∃ db,
    create_database "library" Shop.disk
      = (Ok db, <["library" := ∅]> Shop.disk) ∧
    DataBase.show_tables db = Ok (AList []) ∧
    db !! "name" = Some (AStr "library").
Proof.
  apply (create_database_new "library" Shop.disk). vm_compute. reflexivity.
Defined.

(** In a directory that is there, [Table(db, name, columns)] succeeds when
    it has no file to read or can read it. *)
Lemma table_init_in_directory (db : attrs) (db_name name : string)
    (columns : schema) (dir : directory) (disk : fs) :
  db !! "name" = Some (AStr db_name) →
  disk !! db_name = Some dir →
  (truthy columns = false →
   ∀ f, dir !! (name +:+ ".json") = Some f → is_Some (parsed f)) →
  ∃ t disk', Table.__init__ db name columns disk = (Ok t, disk').
Proof.
  intros Hname Hdir Hread. rewrite (table_init_unfold _ _ _ _ _ Hname). simpl.
  destruct (lookup_file (db_name, name +:+ ".json") disk) as [f |]
    eqn:Hfile.
  - rewrite Hfile. destruct (truthy columns); [by eexists _, _ |].
    unfold lookup_file in Hfile. simpl in Hfile. rewrite Hdir in Hfile.
    destruct (Hread eq_refl f Hfile) as [data ->]. by eexists _, _.
  - rewrite Hdir.
    pose proof (lookup_file_insert (db_name, name +:+ ".json") dir
      (Dumped {| tf_columns := columns; tf_rows := [] |}) disk) as Hnew.
    simpl in Hnew. rewrite Hnew. simpl.
    destruct (truthy columns); by eexists _, _.
Qed.

(** X18: [create_table("tables", ..)] binds the new table over the
    catalog: [show_tables()] then returns the table object, and every later
    [create_table] on that database raises [TypeError].  (When no schema
    is passed and a file [tables.json] is there, the file has to be one
    that [json.load] reads.) *)
Theorem create_table_named_tables (self : attrs) (disk : fs)
    (tables : list string) (db_name : string) (columns : schema)
    (dir : directory) :
  self !! "tables" = Some (AList tables) →
  "tables" ∉ tables →
  self !! "name" = Some (AStr db_name) →
  disk !! db_name = Some dir →
  (truthy columns = false →
   ∀ f, dir !! "tables.json" = Some f → is_Some (parsed f)) →
  ∃ self' disk' t,
    DataBase.create_table "tables" columns (self, disk)
      = (Ok tt, (self', disk')) ∧
    DataBase.show_tables self' = Ok (ATable t) ∧
    ∀ table_name columns2 disk2,
      DataBase.create_table table_name columns2 (self', disk2)
        = (Raise TypeError, (self', disk2)).
Proof.
  intros Htables Hnew Hname Hdir Hread.
  destruct (table_init_in_directory self db_name "tables" columns dir disk
              Hname Hdir Hread) as (t & disk' & Hinit).
  exists (<["tables" := ATable t]>
            (<["tables" := AList (tables ++ ["tables"])]> self)), disk', t.
  split; [| split].
  - unfold DataBase.create_table, mbind, M_bind, get_state. rewrite Htables.
    rewrite bool_decide_eq_false_2 by done.
    unfold DataBase.on_disk. by rewrite Hinit.
  - unfold DataBase.show_tables. by rewrite lookup_insert_eq.
  - intros table_name columns2 disk2.
    unfold DataBase.create_table, mbind, M_bind, get_state.
    by rewrite lookup_insert_eq.
Qed.

Lemma create_table_named_tables_witness :
  ∃ self' disk' t,
    DataBase.create_table "tables" (Some Shop.other_columns)
        (Shop.db, Shop.disk)
      = (Ok tt, (self', disk')) ∧
    DataBase.show_tables self' = Ok (ATable t) ∧
    ∀ table_name columns2 disk2,
      DataBase.create_table table_name columns2 (self', disk2)
        = (Raise TypeError, (self', disk2)).
Proof.
  apply (create_table_named_tables Shop.db Shop.disk ["users"] "shop"
           (Some Shop.other_columns)
           {[ "users.json" := Dumped Shop.users_file ]}).
  - vm_compute. reflexivity.
  - intros [[=] | []%elem_of_nil]%elem_of_cons.
  - vm_compute. reflexivity.
  - vm_compute. reflexivity.
  - vm_compute. discriminate.
Defined.

(** X19: [create_table] keeps the catalog free of duplicates: after a
    call that returns normally the catalog is the old one followed by the
    new name; after a call that raises it is the old one, unless the
    exception is the one [setattr] raises on the name, and then the name
    has been appended. *)
Theorem create_table_catalog_NoDup (self self' : attrs) (disk disk' : fs)
    (tables tables' : list string) (table_name : string) (columns : schema)
    (r : result unit) :
  self !! "tables" = Some (AList tables) →
  NoDup tables →
  DataBase.create_table table_name columns (self, disk) = (r, (self', disk')) →
  self' !! "tables" = Some (AList tables') →
  NoDup tables' ∧
  (r = Ok tt → tables' = tables ++ [table_name]) ∧
  (∀ e, r = Raise e →
     tables' = tables ∨
     (setattr_error table_name = Some e ∧ (table_name ∉ tables) ∧
      tables' = tables ++ [table_name])) ∧
  (settable table_name → r ≠ Ok tt → tables' = tables).
Proof.
  intros Htables Hnodup.
  unfold DataBase.create_table, mbind, M_bind, get_state, raise.
  rewrite Htables.
  destruct (decide (table_name ∈ tables)) as [Hin | Hnin].
  - rewrite bool_decide_eq_true_2 by done. intros [= <- <- <-] Hself.
    rewrite Htables in Hself. injection Hself as <-.
    split; [done |]. split; [done |]. split; [by left | done].
  - rewrite bool_decide_eq_false_2 by done. unfold DataBase.on_disk.
    assert (NoDup (tables ++ [table_name])) as Hnodup'.
    { apply NoDup_app. split; [done |]. split; [| apply NoDup_singleton].
      intros x Hx ->%list_elem_of_singleton. done. }
    destruct (Table.__init__ self table_name columns disk) as [[t | e] disk1].
    + unfold DataBase.setattr, DataBase.assign, raise, settable. simpl.
      destruct (setattr_error table_name) as [e |] eqn:Hset.
      * intros [= <- <- <-] Hself. rewrite lookup_insert_eq in Hself.
        injection Hself as <-. split; [done |]. split; [done |].
        split; [| done]. intros e' [= <-]. by right.
      * intros [= <- <- <-] Hself.
        destruct (decide (table_name = "tables")) as [-> | Hne].
        { by rewrite lookup_insert_eq in Hself. }
        rewrite lookup_insert_ne, lookup_insert_eq in Hself by done.
        injection Hself as <-. split; [done |]. split; [done |].
        split; [done |]. done.
    + intros [= <- <- <-] Hself. rewrite Htables in Hself.
      injection Hself as <-.
      split; [done |]. split; [done |]. split; [by left | done].
Qed.

Lemma create_table_catalog_NoDup_witness :
  NoDup ["users"; "orders"] ∧
  (Ok tt = Ok tt → ["users"; "orders"] = ["users"] ++ ["orders"]) ∧
  (∀ e, Ok tt = Raise e →
     ["users"; "orders"] = ["users"] ∨
     (setattr_error "orders" = Some e ∧ ("orders" ∉ ["users"]) ∧
      ["users"; "orders"] = ["users"] ++ ["orders"])) ∧
  (settable "orders" → Ok tt ≠ Ok tt → ["users"; "orders"] = ["users"]).
Proof.
  apply (create_table_catalog_NoDup Shop.db
           (<["orders" := ATable {| name := "orders";
                table_filepath := ("shop", "orders.json");
                columns := Some Shop.other_columns |}]>
              (<["tables" := AList ["users"; "orders"]]> Shop.db))
           Shop.disk
           (<["shop" := <["orders.json" :=
               Dumped {| tf_columns := Some Shop.other_columns;
                         tf_rows := [] |}]>
                 {[ "users.json" := Dumped Shop.users_file ]}]> Shop.disk)
           ["users"] ["users"; "orders"] "orders" (Some Shop.other_columns)
           (Ok tt)).
  - vm_compute. reflexivity.
  - apply (bool_decide_unpack _). vm_compute. exact I.
  - vm_compute. reflexivity.
  - vm_compute. reflexivity.
Defined.



